(** * paper-analyzer: the PDF extraction core of [app.py]

    A shallow embedding of the two extractors of [app.py],
    [extract_text_from_pdf] (lines 60-79) and [extract_key_figures]
    (lines 82-109), and the properties their specification states.

    - Python [str] is a sequence of Unicode code points: [list N].
    - Python [bytes] is [list Byte.byte].
    - PyMuPDF coordinates and the progress fraction are modelled as
      rationals ([Q]).
    - Exceptions are explicit: a call either [returned] a value or
      [raised] an exception.
    - What the calls touch outside their arguments -- the Streamlit
      side bar, the clock, the document handles PyMuPDF holds open --
      is an explicit [World] threaded through them.
    - The [st.cache_data] decorators memoise the two functions on their
      arguments; what is embedded is the functions they decorate.

    The rest of the script follows the extractors: the API key of lines
    41-57, the two AI functions, the side bar and the main block of
    lines 176-280, and the decorators as far as the values they return
    go. *)

From Stdlib.Strings Require Import Ascii String Byte.
From Stdlib Require Import List Bool Arith ZArith NArith QArith Qabs Lia.
From Stdlib Require Import DecimalString.
Import ListNotations.

(* ================================================================== *)
(** * Exceptions *)

Inductive exn : Type :=
| ValueError
| KeyError
| IndexError
| RuntimeError
| ZeroDivisionError
| FileDataError
| StreamlitAPIException.

Inductive Exc (A : Type) : Type :=
| returned (a : A)
| raised (e : exn).

Arguments returned {A} a.
Arguments raised {A} e.

Definition exc_bind {A B : Type} (c : Exc A) (k : A -> Exc B) : Exc B :=
  match c with
  | returned a => k a
  | raised e => raised e
  end.

Declare Scope exc_scope.
Delimit Scope exc_scope with exc.
Notation "x <- c ;; k" := (exc_bind c (fun x => k))
  (at level 61, c at next level, right associativity) : exc_scope.

(* ================================================================== *)
(** * Strings of code points *)

Definition char : Type := N.
Definition str : Type := list char.
Definition bytes : Type := list byte.

(** An ASCII literal as a Python string. *)
Definition lit (s : string) : str :=
  map N_of_ascii (list_ascii_of_string s).

Definition LF : char := 10%N.

(** [str.isspace] on one code point; the same set is what [str.strip]
    removes and what [\s] matches in a [str] pattern. *)
Definition isspace (c : char) : bool :=
  ((9 <=? c) && (c <=? 13) || (28 <=? c) && (c <=? 32) ||
   (c =? 133) || (c =? 160) || (c =? 5760) ||
   (8192 <=? c) && (c <=? 8202) ||
   (c =? 8232) || (c =? 8233) || (c =? 8239) || (c =? 8287) ||
   (c =? 12288))%N.

(** The zero digit of every block of ten decimal digits (Unicode
    category Nd, Unicode 14): [\d] matches a code point of one of the
    blocks. *)
Definition decimal_zeros : list N :=
  [0x30; 0x660; 0x6f0; 0x7c0; 0x966; 0x9e6; 0xa66; 0xae6; 0xb66; 0xbe6;
   0xc66; 0xce6; 0xd66; 0xde6; 0xe50; 0xed0; 0xf20; 0x1040; 0x1090;
   0x17e0; 0x1810; 0x1946; 0x19d0; 0x1a80; 0x1a90; 0x1b50; 0x1bb0;
   0x1c40; 0x1c50; 0xa620; 0xa8d0; 0xa900; 0xa9d0; 0xa9f0; 0xaa50;
   0xabf0; 0xff10; 0x104a0; 0x10d30; 0x11066; 0x110f0; 0x11136;
   0x111d0; 0x112f0; 0x11450; 0x114d0; 0x11650; 0x116c0; 0x11730;
   0x118e0; 0x11950; 0x11c50; 0x11d50; 0x11da0; 0x16a60; 0x16ac0;
   0x16b50; 0x1d7ce; 0x1d7d8; 0x1d7e2; 0x1d7ec; 0x1d7f6; 0x1e140;
   0x1e2f0; 0x1e950; 0x1fbf0]%N.

Definition isdecimal (c : char) : bool :=
  existsb (fun z => (z <=? c) && (c <? z + 10))%N decimal_zeros.

Definition is_ascii_upper (c : char) : bool := ((65 <=? c) && (c <=? 90))%N.

Definition ascii_lower (c : char) : char :=
  if is_ascii_upper c then (c + 32)%N else c.

(** Does the pattern character [p], an ASCII character, match the input
    character [c] under [re.IGNORECASE]?  Besides the other case of an
    ASCII letter, four non-ASCII letters match: U+0130 and U+0131 match
    [i], U+017F matches [s] and U+212A matches [k]. *)
Definition ignorecase_eq (p c : char) : bool :=
  let lo := ascii_lower p in
  ((ascii_lower c =? lo) ||
   (lo =? 105) && ((c =? 0x130) || (c =? 0x131)) ||
   (lo =? 115) && (c =? 0x17f) ||
   (lo =? 107) && (c =? 0x212a))%N.

Fixpoint startswith (s prefix : str) {struct prefix} : bool :=
  match prefix, s with
  | [], _ => true
  | p :: prefix', c :: s' => (c =? p)%N && startswith s' prefix'
  | _ :: _, [] => false
  end.

Fixpoint lstrip (s : str) : str :=
  match s with
  | [] => []
  | c :: s' => if isspace c then lstrip s' else s
  end.

Definition rstrip (s : str) : str := rev (lstrip (rev s)).

(** [s.strip()] *)
Definition strip (s : str) : str := rstrip (lstrip s).

(** The pieces of [s] between the occurrences of [sep], scanning from
    the left; [skip] counts the characters of a separator just found
    that are still to be passed over, [cur] is the piece being built. *)
Fixpoint split_from (sep : str) (skip : nat) (cur : str) (s : str)
  : list str :=
  match s with
  | [] => [cur]
  | c :: s' =>
      match skip with
      | S n => split_from sep n cur s'
      | O =>
          if startswith s sep
          then cur :: split_from sep (length sep - 1) [] s'
          else split_from sep 0 (cur ++ [c]) s'
      end
  end.

(** [s.split(sep)]: an empty separator is a [ValueError]. *)
Definition split (s sep : str) : Exc (list str) :=
  match sep with
  | [] => raised ValueError
  | _ :: _ => returned (split_from sep 0 [] s)
  end.

(** [l[0]] *)
Definition getitem0 {A : Type} (l : list A) : Exc A :=
  match l with
  | [] => raised IndexError
  | x :: _ => returned x
  end.

(* ================================================================== *)
(** * Regular expressions: the part of [re] the program uses *)

Inductive regex : Type :=
| Eps                          (* the empty pattern *)
| Cls (p : char -> bool)       (* one character of a class *)
| Bol                          (* ^ *)
| Cat (r1 r2 : regex)          (* r1 r2 *)
| Or (r1 r2 : regex)           (* r1|r2 *)
| Star (r : regex).            (* r* *)

Definition Plus (r : regex) : regex := Cat r (Star r).

Record flags : Type := mkFlags { IGNORECASE : bool; MULTILINE : bool }.

Definition no_flags : flags := mkFlags false false.
Definition re_IGNORECASE : flags := mkFlags true false.
Definition re_MULTILINE : flags := mkFlags false true.

(** [^] holds at the start of the string and, in multiline mode, just
    after a line feed; [prev] is the character before the position. *)
Definition at_bol (multiline : bool) (prev : option char) : bool :=
  match prev with
  | None => true
  | Some c => multiline && (c =? LF)%N
  end.

(** Backtracking matcher in continuation style: can [r] match a prefix
    of [s] so that [k] accepts the rest?  An iteration of a star must
    consume a character, which bounds the iterations by [length s]. *)
Fixpoint accept (multiline : bool) (r : regex) (prev : option char)
  (s : str) (k : option char -> str -> bool) {struct r} : bool :=
  match r with
  | Eps => k prev s
  | Cls p =>
      match s with
      | [] => false
      | c :: s' => p c && k (Some c) s'
      end
  | Bol => at_bol multiline prev && k prev s
  | Cat r1 r2 =>
      accept multiline r1 prev s
        (fun prev' s' => accept multiline r2 prev' s' k)
  | Or r1 r2 => accept multiline r1 prev s k || accept multiline r2 prev s k
  | Star r1 =>
      (fix iterate (fuel : nat) (prev : option char) (s : str) : bool :=
         k prev s ||
         match fuel with
         | O => false
         | S fuel' =>
             accept multiline r1 prev s
               (fun prev' s' =>
                  (length s' <? length s)%nat && iterate fuel' prev' s')
         end) (length s) prev s
  end.

Definition match_here (multiline : bool) (r : regex) (prev : option char)
  (s : str) : bool :=
  accept multiline r prev s (fun _ _ => true).

Fixpoint search_from (multiline : bool) (r : regex) (prev : option char)
  (s : str) : bool :=
  match_here multiline r prev s ||
  match s with
  | [] => false
  | c :: s' => search_from multiline r (Some c) s'
  end.

(** The truth value of [re.search(pattern, string, flags)], for a
    pattern compiled under the same flags. *)
Definition re_search (pattern : flags -> regex) (string : str) (fl : flags)
  : bool :=
  search_from (MULTILINE fl) (pattern fl) None string.

(** A literal character and a literal string as patterns. *)
Definition Chr (fl : flags) (p : char) : regex :=
  Cls (fun c => if IGNORECASE fl then ignorecase_eq p c else (c =? p)%N).

Definition Lit (fl : flags) (s : str) : regex :=
  fold_right (fun p r => Cat (Chr fl p) r) Eps s.

(** [\s] and [\d] *)
Definition Space : regex := Cls isspace.
Definition Digit : regex := Cls isdecimal.

(** [re.escape(keyword)] as a pattern: the keyword, literally. *)
Definition re_escape (keyword : str) (fl : flags) : regex := Lit fl keyword.

(** [f"^{re.escape(keyword)}"] *)
Definition heading_pattern (keyword : str) (fl : flags) : regex :=
  Cat Bol (re_escape keyword fl).

(** [r'Figure\s*\d+|Fig\.\s*\d+'] *)
Definition caption_pattern (fl : flags) : regex :=
  Or (Cat (Lit fl (lit "Figure")) (Cat (Star Space) (Plus Digit)))
     (Cat (Lit fl (lit "Fig"))
        (Cat (Chr fl 46%N) (Cat (Star Space) (Plus Digit)))).

(* ================================================================== *)
(** * The decoded document, as PyMuPDF presents it *)

Record Rect : Type := mkRect { x0 : Q; y0 : Q; x1 : Q; y1 : Q }.

(** An item of [page.get_text("blocks")]: the tuple
    [(x0, y0, x1, y1, text, block_no, block_type)], one field per
    index. *)
Record TextBlock : Type := mkBlock {
  tb0 : Q; tb1 : Q; tb2 : Q; tb3 : Q; tb4 : str; tb5 : Z; tb6 : Z
}.

(** An item of [page.get_images(full=True)]; of its ten entries the
    program reads the first, the cross-reference number, and PyMuPDF
    finds the placement by the eighth, the name. *)
Record ImgInfo : Type := mkImg { img_xref : Z; img_name : str }.

(** The dictionary [doc.extract_image(xref)] returns; [image] is absent
    when the dictionary has no such key. *)
Record BaseImage : Type := mkBase { ext : str; image : option bytes }.

Record Page : Type := mkPage {
  get_text : str;                            (* page.get_text() *)
  get_text_blocks : list TextBlock;          (* page.get_text("blocks") *)
  get_images : list ImgInfo;                 (* page.get_images(full=True) *)
  get_image_bbox : ImgInfo -> Exc Rect       (* page.get_image_bbox(info) *)
}.

Record Document : Type := mkDoc {
  pages : list Page;                         (* list(doc) *)
  extract_image : Z -> Exc BaseImage         (* doc.extract_image(xref) *)
}.

(** [base_image["image"]] *)
Definition getitem_image (base_image : BaseImage) : Exc bytes :=
  match image base_image with
  | Some b => returned b
  | None => raised KeyError
  end.

(* ================================================================== *)
(** * The world outside: side bar, clock and document handles *)

Inductive ui_event : Type :=
| ProgressCreated (value : Q)
| ProgressUpdated (value : Q) (done total : Z)
| ProgressEmptied.

Record World : Type := mkWorld {
  ui : list ui_event;          (* what the side bar was told, in order *)
  clock : Q;                   (* seconds slept *)
  open_documents : nat         (* document handles not yet closed *)
}.

Definition Run (A : Type) : Type := World -> Exc A * World.

Definition run_ret {A : Type} (a : A) : Run A := fun w => (returned a, w).

Definition run_bind {A B : Type} (c : Run A) (k : A -> Run B) : Run B :=
  fun w =>
    match c w with
    | (returned a, w') => k a w'
    | (raised e, w') => (raised e, w')
    end.

Definition lift {A : Type} (c : Exc A) : Run A := fun w => (c, w).

Declare Scope run_scope.
Delimit Scope run_scope with run.
Notation "x <- c ;; k" := (run_bind c (fun x => k))
  (at level 61, c at next level, right associativity) : run_scope.
Notation "c ;; k" := (run_bind c (fun _ => k))
  (at level 61, right associativity) : run_scope.

Definition emit (e : ui_event) : Run unit :=
  fun w => (returned tt, mkWorld (ui w ++ [e]) (clock w) (open_documents w)).

(** [st.sidebar.progress(0, text=...)] *)
Definition sidebar_progress : Run unit := emit (ProgressCreated 0).

(** [progress_bar.progress(value, text=f"...{done}/{total}...")]:
    Streamlit refuses a float outside [0.0, 1.0]. *)
Definition progress_bar_progress (value : Q) (done total : Z) : Run unit :=
  if Qle_bool 0 value && Qle_bool value 1
  then emit (ProgressUpdated value done total)
  else lift (raised StreamlitAPIException).

(** [progress_bar.empty()] *)
Definition progress_bar_empty : Run unit := emit ProgressEmptied.

(** [time.sleep(seconds)] *)
Definition time_sleep (seconds : Q) : Run unit :=
  fun w =>
    (returned tt, mkWorld (ui w) (clock w + seconds) (open_documents w)).

(** [doc.close()] *)
Definition doc_close (doc : Document) : Run unit :=
  fun w =>
    (returned tt, mkWorld (ui w) (clock w) (Nat.pred (open_documents w))).

(** [a / b] on Python integers *)
Definition truediv (a b : Z) : Exc Q :=
  if (b =? 0)%Z then raised ZeroDivisionError
  else returned (inject_Z a / inject_Z b).

(* ================================================================== *)
(** * The extractors *)

(** The Korean keyword, "chamgomunheon" in Latin letters: the four
    syllables U+CC38 U+ACE0 U+BB38 U+D5CC. *)
Definition chamgomunheon : str := [0xcc38; 0xace0; 0xbb38; 0xd5cc]%N.

Definition reference_keywords : list str :=
  [lit "References"; lit "REFERENCES"; chamgomunheon; lit "Bibliography"].

(** The two variables the page loop of [extract_text_from_pdf]
    updates. *)
Record text_state : Type := mkText {
  full_text : str;
  stop_extraction : bool
}.

(** [for keyword in reference_keywords: ...] (lines 69-73); the
    [break] ends the recursion. *)
Fixpoint keyword_loop (keywords : list str) (text : str) (st : text_state)
  : Exc text_state :=
  match keywords with
  | [] => returned st
  | keyword :: keywords' =>
      if re_search (heading_pattern keyword) (strip text) re_MULTILINE
      then (parts <- split text keyword ;;
            head <- getitem0 parts ;;
            returned (mkText (full_text st ++ head) true))%exc
      else keyword_loop keywords' text st
  end.

(** The body of [for page in doc:] (lines 67-77). *)
Definition text_page (optimize : bool) (page : Page) (st : text_state)
  : Exc text_state :=
  let text := get_text page in
  if optimize && negb (stop_extraction st) then
    (st' <- keyword_loop reference_keywords text st ;;
     if stop_extraction st' then returned st'             (* continue *)
     else if negb (stop_extraction st')
          then returned (mkText (full_text st' ++ text) (stop_extraction st'))
          else returned st')%exc
  else if negb (stop_extraction st)
       then returned (mkText (full_text st ++ text) (stop_extraction st))
       else returned st.

Fixpoint text_loop (optimize : bool) (doc_pages : list Page)
  (st : text_state) : Exc text_state :=
  match doc_pages with
  | [] => returned st
  | page :: rest =>
      (st' <- text_page optimize page st ;; text_loop optimize rest st')%exc
  end.

(** [for tb in text_blocks: ...] (lines 97-99) *)
Fixpoint caption_loop (text_blocks : list TextBlock) (img_bbox : Rect)
  (caption_candidate : str) : str :=
  match text_blocks with
  | [] => caption_candidate
  | tb :: rest =>
      if negb (Qle_bool (tb1 tb) (y1 img_bbox)) &&
         negb (Qle_bool 70 (Qabs (tb1 tb - y1 img_bbox)))
      then caption_loop rest img_bbox (caption_candidate ++ tb4 tb)
      else caption_loop rest img_bbox caption_candidate
  end.

(** [for img_info in images: ...] (lines 94-104) *)
Fixpoint image_loop (doc : Document) (page : Page)
  (text_blocks : list TextBlock) (images : list ImgInfo)
  (key_figures : list bytes) : Exc (list bytes) :=
  match images with
  | [] => returned key_figures
  | img_info :: rest =>
      (img_bbox <- get_image_bbox page img_info ;;
       let caption_candidate := caption_loop text_blocks img_bbox [] in
       if re_search caption_pattern caption_candidate re_IGNORECASE
       then
         let xref := img_xref img_info in
         base_image <- extract_image doc xref ;;
         image_bytes <- getitem_image base_image ;;
         image_loop doc page text_blocks rest (key_figures ++ [image_bytes])
       else image_loop doc page text_blocks rest key_figures)%exc
  end.

(** [for i, page in enumerate(pages_to_process): ...] (lines 91-106);
    [i] is the index of the first page of [todo]. *)
Fixpoint page_loop (doc : Document) (total_pages_to_process : Z) (i : Z)
  (todo : list Page) (key_figures : list bytes) : Run (list bytes) :=
  match todo with
  | [] => run_ret key_figures
  | page :: rest =>
      (let text_blocks := get_text_blocks page in
       let images := get_images page in
       key_figures <- lift (image_loop doc page text_blocks images
                              key_figures) ;;
       value <- lift (truediv (i + 1) total_pages_to_process) ;;
       progress_bar_progress value (i + 1) total_pages_to_process ;;
       time_sleep (1 # 100) ;;
       page_loop doc total_pages_to_process (i + 1) rest key_figures)%run
  end.

(** Lines 87-89. *)
Definition pages_to_process (doc : Document) (optimize : bool) : list Page :=
  let all := pages doc in
  if optimize && (1 <? length all)%nat then tl all else all.

Section Extractors.

(** PyMuPDF's decoding of a byte stream, which raises on bytes that are
    no PDF. *)
Variable decode : bytes -> Exc Document.

(** [fitz.open(stream=pdf_bytes, filetype="pdf")]: a decoded document
    is a handle held open until it is closed. *)
Definition fitz_open (pdf_bytes : bytes) : Run Document :=
  fun w =>
    match decode pdf_bytes with
    | returned doc =>
        (returned doc, mkWorld (ui w) (clock w) (S (open_documents w)))
    | raised e => (raised e, w)
    end.

Definition extract_text_from_pdf (pdf_bytes : bytes) (optimize : bool)
  : Run str :=
  (doc <- fitz_open pdf_bytes ;;
   st <- lift (text_loop optimize (pages doc) (mkText [] false)) ;;
   doc_close doc ;;
   run_ret (full_text st))%run.

Definition extract_key_figures (pdf_bytes : bytes) (optimize : bool)
  : Run (list bytes) :=
  (doc <- fitz_open pdf_bytes ;;
   sidebar_progress ;;
   let todo := pages_to_process doc optimize in
   let total_pages_to_process := Z.of_nat (length todo) in
   key_figures <- page_loop doc total_pages_to_process 0 todo [] ;;
   progress_bar_empty ;;
   doc_close doc ;;
   run_ret key_figures)%run.

End Extractors.

(* ================================================================== *)
(** * Notions the specification uses *)

(** [k] occurs in [s] *)
Definition occurs (k s : str) : Prop := exists a b, s = a ++ k ++ b.

(** [head] is the part of [text] before the first occurrence of [k]. *)
Definition before_first_occurrence (k text head : str) : Prop :=
  (exists b, text = head ++ k ++ b) /\
  forall a' b', text = a' ++ k ++ b' -> (length head <= length a')%nat.

(** [k] occurs in [s] at the start of a line: at the start of [s] or
    just after a line feed. *)
Definition line_anchored (k s : str) : Prop :=
  exists a b, s = a ++ k ++ b /\ (a = [] \/ exists a', a = a' ++ [LF]).


(** The character just before the position reached after reading [a],
    when [prev] is the character before [a]. *)
Definition char_before (prev : option char) (a : str) : option char :=
  fold_left (fun _ c => Some c) a prev.

(** The page's text shows keyword [kw] as a heading: [kw] stands at the
    start of a line of the text trimmed of surrounding white space. *)
Definition heading_on (kw : str) (page : Page) : Prop :=
  line_anchored kw (strip (get_text page)).

(** The texts of the pages, one after the other. *)
Definition all_text (doc_pages : list Page) : str :=
  concat (map get_text doc_pages).

(** The text block starts below the image's bottom edge, at a gap of
    fewer than 70 units: [tb.y0 > image.y1] and
    [tb.y0 - image.y1 < 70]. *)
Definition below_within (tb : TextBlock) (image_rect : Rect) : bool :=
  negb (Qle_bool (tb1 tb) (y1 image_rect)) &&
  negb (Qle_bool 70 (tb1 tb - y1 image_rect)).

(** The caption candidate: the texts of the qualifying blocks, in page
    order. *)
Definition caption_candidate (page : Page) (image_rect : Rect) : str :=
  concat (map tb4 (filter (fun tb => below_within tb image_rect)
                     (get_text_blocks page))).

Definition has_caption (page : Page) (image_rect : Rect) : bool :=
  re_search caption_pattern (caption_candidate page image_rect) re_IGNORECASE.

(** An enumerated image qualifies when its caption candidate matches. *)
Definition qualifies (page : Page) (img_info : ImgInfo) : bool :=
  match get_image_bbox page img_info with
  | returned image_rect => has_caption page image_rect
  | raised _ => false
  end.

(** The stored bytes of an image, when they can be retrieved. *)
Definition payload (doc : Document) (img_info : ImgInfo) : option bytes :=
  match extract_image doc (img_xref img_info) with
  | returned base_image => image base_image
  | raised _ => None
  end.

(** What one enumerated image contributes: its bytes when it qualifies,
    nothing otherwise, and nothing when it cannot be read. *)
Definition figure_of (doc : Document) (page : Page) (img_info : ImgInfo)
  : list bytes :=
  if qualifies page img_info then
    match payload doc img_info with
    | Some b => [b]
    | None => []
    end
  else [].

Definition figures_of_page (doc : Document) (page : Page) : list bytes :=
  flat_map (figure_of doc page) (get_images page).

Definition figures_of_pages (doc : Document) (scanned : list Page)
  : list bytes :=
  flat_map (figures_of_page doc) scanned.

(** Every retrieval the scan makes for the image succeeds: its bounding
    box and, when it qualifies, its bytes. *)
Definition readable (doc : Document) (page : Page) (img_info : ImgInfo)
  : Prop :=
  (exists image_rect, get_image_bbox page img_info = returned image_rect) /\
  (qualifies page img_info = true ->
   exists b, payload doc img_info = Some b).

Definition page_readable (doc : Document) (page : Page) : Prop :=
  Forall (readable doc page) (get_images page).

(** A retrieval the scan makes for the image raises [e]. *)
Definition retrieval_raises (doc : Document) (page : Page)
  (img_info : ImgInfo) (e : exn) : Prop :=
  get_image_bbox page img_info = raised e \/
  (qualifies page img_info = true /\
   (extract_image doc (img_xref img_info) = raised e \/
    (payload doc img_info = None /\ e = KeyError))).

(** A progress update shows a fraction [done / total] of the pages to
    process, with at least one page done and no more than all. *)
Definition progress_ok (total : Z) (ev : ui_event) : Prop :=
  match ev with
  | ProgressUpdated value done total' =>
      total' = total /\ (1 <= done <= total)%Z /\
      value = (inject_Z done / inject_Z total)%Q
  | _ => True
  end.

(** The enumerations the scan accepts, in scan order: page by page,
    and on a page in the order of [get_images]; an image enumerated
    twice is listed twice. *)
Definition qualifying_enumerations (scanned : list Page) : list ImgInfo :=
  flat_map (fun page => filter (qualifies page) (get_images page)) scanned.

Definition bytes_eq_dec : forall a b : bytes, {a = b} + {a <> b} :=
  list_eq_dec byte_eq_dec.

(** [k] occurs in [s], decided. *)
Fixpoint occursb (k s : str) : bool :=
  startswith s k ||
  match s with
  | [] => false
  | _ :: s' => occursb k s'
  end.

(** How a scan of the pages [scanned] ends: with the figures of these
    pages, or with the exception of a retrieval on one of them. *)
Definition scan_outcome (doc : Document) (scanned : list Page)
  (result : Exc (list bytes)) : Prop :=
  match result with
  | returned figs =>
      Forall (page_readable doc) scanned /\
      figs = figures_of_pages doc scanned
  | raised e =>
      exists page img_info,
        In page scanned /\ In img_info (get_images page) /\
        retrieval_raises doc page img_info e
  end.

(* ================================================================== *)
(** * Sample documents *)

Definition png_bytes : bytes := [x89; x50; x4e; x47].
Definition jpeg_bytes : bytes := [xff; xd8; xff].

Definition cover_image : ImgInfo := mkImg 5 (lit "Im0").
Definition figure_image : ImgInfo := mkImg 7 (lit "Im1").
Definition broken_image : ImgInfo := mkImg 8 (lit "Im2").

Definition sample_extract_image (xref : Z) : Exc BaseImage :=
  if (xref =? 5)%Z then returned (mkBase (lit "jpeg") (Some jpeg_bytes))
  else if (xref =? 7)%Z then returned (mkBase (lit "png") (Some png_bytes))
  else raised ValueError.

(** An image whose bottom edge is at 300 and, 30 units below it, the
    block "Figure 1: Example structure". *)
Definition caption_block : TextBlock :=
  mkBlock 50 330 250 345 (lit "Figure 1: Example structure") 0 0.

Definition image_rect_300 : Rect := mkRect 50 100 250 300.

Definition page_cover : Page :=
  mkPage (lit "A Study of Structures" ++ [LF])
    [mkBlock 50 320 250 335 (lit "Fig. 9 Logo") 0 0]
    [cover_image]
    (fun _ => returned image_rect_300).

Definition page_body : Page :=
  mkPage (lit "Results" ++ [LF] ++ lit "References" ++ [LF] ++
          lit "[1] A. Author")
    [caption_block]
    [figure_image]
    (fun _ => returned image_rect_300).

Definition page_tail : Page :=
  mkPage (lit "Appendix") [] [] (fun _ => raised ValueError).

(** A page that enumerates the same image twice. *)
Definition page_twice : Page :=
  mkPage (lit "Results") [caption_block] [figure_image; figure_image]
    (fun _ => returned image_rect_300).

(** A page with a good figure and an image whose bounding box cannot be
    retrieved. *)
Definition page_corrupt : Page :=
  mkPage (lit "Results") [caption_block] [figure_image; broken_image]
    (fun info => if (img_xref info =? 8)%Z then raised ValueError
                 else returned image_rect_300).

Definition sample_doc : Document :=
  mkDoc [page_cover; page_body; page_tail] sample_extract_image.
Definition plain_doc : Document :=
  mkDoc [page_cover; page_tail] sample_extract_image.
Definition spread_doc : Document :=
  mkDoc [page_twice; page_twice] sample_extract_image.
Definition corrupt_doc : Document :=
  mkDoc [page_corrupt; page_body] sample_extract_image.
Definition empty_doc : Document := mkDoc [] sample_extract_image.

(** A decoder for the samples: a one-byte file selects the document,
    anything else is no PDF. *)
Definition sample_open (pdf_bytes : bytes) : Exc Document :=
  match pdf_bytes with
  | [tag] =>
      match Byte.to_N tag with
      | 0%N => returned empty_doc
      | 1%N => returned sample_doc
      | 2%N => returned plain_doc
      | 3%N => returned spread_doc
      | 4%N => returned corrupt_doc
      | _ => raised FileDataError
      end
  | _ => raised FileDataError
  end.

Definition fresh_world : World := mkWorld [] 0 0.

(* ================================================================== *)
(** * Further notions about the extractors *)

(** The progress updates of [n] pages in a row, the first of them the
    page of index [i], out of [total]. *)
Fixpoint progress_updates (total i : Z) (n : nat) : list ui_event :=
  match n with
  | O => []
  | S n' =>
      ProgressUpdated (inject_Z (i + 1) / inject_Z total) (i + 1) total
        :: progress_updates total (i + 1) n'
  end.


(* ================================================================== *)
(** * The rest of the script: literals *)

(** The code points of a UTF-8 byte sequence; [pending] continuation
    bytes of the character in progress are still to come, [acc] holds
    its bits so far. *)
Fixpoint utf8_from (pending : nat) (acc : N) (bs : list byte) : str :=
  match bs with
  | [] => []
  | b :: rest =>
      let n := Byte.to_N b in
      match pending with
      | O =>
          if (n <? 0x80)%N then n :: utf8_from 0 0%N rest
          else if (n <? 0xe0)%N then utf8_from 1 (n - 0xc0)%N rest
          else if (n <? 0xf0)%N then utf8_from 2 (n - 0xe0)%N rest
          else utf8_from 3 (n - 0xf0)%N rest
      | S p =>
          let acc' := (acc * 64 + (n - 0x80))%N in
          match p with
          | O => acc' :: utf8_from 0 0%N rest
          | S _ => utf8_from p acc' rest
          end
      end
  end.

(** A string literal of the source, as the Python string it denotes. *)
Definition utf8 (s : string) : str :=
  utf8_from 0 0%N (list_byte_of_string s).

(** [str(n)] for a number that is not negative *)
Definition str_of_nat (n : nat) : str :=
  lit (NilEmpty.string_of_uint (Nat.to_uint n)).

(** The double quote, which no literal here can hold. *)
Definition dquote : str := [34%N].

(** Line 11 *)
Definition page_title : str :=
  utf8 "Summize | AI 논문 분석".

(** Lines 17-36 *)
Definition style_sheet : str :=
  utf8 "
<style>
    /* 포인트 컬러 정의 */
    :root {
        --primary-color: #4285F4; /* Google Blue */
        --primary-color-dark: #1a73e8;
        --text-color: #202124;
        --background-color: #f0f2f6;
        --secondary-background-color: #ffffff;
        --border-color: #dfe1e5;
    }
    /* ... (기존 CSS와 동일하여 생략) ... */
    .main-container {
        padding: 2rem;
        background-color: var(--secondary-background-color);
        border-radius: 10px;
        box-shadow: 0 4px 12px rgba(0,0,0,0.08);
    }
</style>
".

(** Line 45 *)
Definition label_key_setup : str :=
  utf8 "API 키 설정".

(** Line 47 *)
Definition label_key_input : str :=
  utf8 "Gemini API 키를 입력하세요.".

(** Line 56, before the exception's text *)
Definition msg_configure_failed : str :=
  utf8 "API 키 설정에 실패했습니다: ".

(** Line 115 *)
Definition msg_summary_needs_key : str :=
  utf8 "AI 요약 기능을 사용하려면 사이드바에 Gemini API 키를 입력해야 합니다.".

(** Lines 119-139, up to the paper's text *)
Definition summary_prompt_head : str :=
  utf8 "
    당신은 논문 분석 전문가 AI입니다. 제공된 논문 텍스트를 바탕으로, 비전공자도 이해할 수 있도록 매우 상세하고 구체적인 분석 보고서를 작성해주세요. 다음 구조를 따라주세요.

    **1. 연구 배경 및 목적 (Introduction):**
    - 이 연구가 왜 시작되었나요? 어떤 문제를 해결하려고 하나요?
    - 이 논문이 달성하고자 하는 핵심 목표는 무엇인가요?

    **2. 연구 방법론 (Methodology):**
    - 연구 목표를 달성하기 위해 어떤 실험, 데이터, 또는 모델을 사용했나요?
    - 사용된 방법론의 핵심적인 특징이나 과정은 무엇인가요?

    **3. 핵심 결과 및 발견 (Key Findings & Results):**
    - 연구를 통해 무엇을 알아냈나요? 가장 중요한 결과는 무엇인가요?
    - 데이터나 실험 결과가 보여주는 구체적인 수치나 경향을 언급해주세요.

    **4. 결론 및 시사점 (Conclusion & Implications):**
    - 이 연구 결과가 어떤 의미를 가지나요?
    - 이 연구의 한계점은 무엇이며, 앞으로 어떤 추가 연구가 필요할까요?

    **[논문 전체 텍스트]**
    ".

(** Lines 139-140, after the paper's text *)
Definition summary_prompt_tail : str :=
  utf8 "
    ".

(** Line 145, before the exception's text *)
Definition msg_summary_failed : str :=
  utf8 "AI 요약 중 오류가 발생했습니다: ".

(** Line 151 *)
Definition msg_analysis_needs_key : str :=
  utf8 "AI 이미지 분석을 사용하려면 API 키가 필요합니다.".

(** Line 157 *)
Definition image_prompt_role : str :=
  utf8 "당신은 재료과학 논문의 시각 자료 분석 전문가입니다. 아래 이미지와 논문 전체 텍스트를 바탕으로 상세한 분석 보고서를 작성해주세요.".

(** Line 158, before the paper's text *)
Definition image_prompt_context : str :=
  utf8 "--- [논문 전체 텍스트 (참고용)] ---
".

(** Line 159 *)
Definition image_prompt_target : str :=
  utf8 "
--- [분석 대상 이미지] ---".

(** Lines 161-166 *)
Definition image_prompt_request : str :=
  utf8 "
        
--- [분석 요청] ---
        **1. 이미지 내용 상세 묘사:** 이 이미지는 무엇이며, 어떤 요소(X/Y축, 선, 점, 구조 등)들로 구성되어 있습니까? 각 요소가 무엇을 나타내는지 구체적으로 설명해주세요.
        **2. 이미지의 의미와 역할:** 이 이미지가 논문에서 전달하려는 핵심 메시지는 무엇이며, 어떤 주장을 뒷받침하는 근거로 사용됩니까? 논문 전체의 맥락과 연결하여 설명해주세요.
        **3. 전문가적 해석:** 이 이미지를 통해 알 수 있는 과학적 또는 공학적 사실은 무엇입니까? 비전공자가 놓칠 수 있는 깊이 있는 해석을 제공해주세요.
        ".

(** Line 172, before the exception's text *)
Definition msg_analysis_failed : str :=
  utf8 "AI 이미지 분석 중 오류가 발생했습니다: ".

(** Line 177 *)
Definition logo_url : str :=
  utf8 "https://placehold.co/250x80/4285F4/FFFFFF?text=Summize&font=raleway".

(** Line 178 *)
Definition label_settings : str :=
  utf8 "분석 설정".

(** Line 179 *)
Definition label_upload : str :=
  utf8 "논문 PDF 파일을 업로드하세요.".

(** Lines 182, 188, 191 and 198 *)
Definition rule : str :=
  utf8 "---".

(** Line 183 *)
Definition label_choose_tasks : str :=
  utf8 "분석 항목 선택".

(** Line 185 *)
Definition label_extract_text : str :=
  utf8 "텍스트 추출".

(** Line 186 *)
Definition label_summarize : str :=
  utf8 "AI 논문 요약".

(** Line 187 *)
Definition label_figures : str :=
  utf8 "핵심 Figure 분석".

(** Line 189 *)
Definition label_optimizing : str :=
  utf8 "최적화 옵션".

(** Line 190 *)
Definition label_fast : str :=
  utf8 "빠른 분석 (표지/참고문헌 제외)".

(** Line 192 *)
Definition label_start : str :=
  utf8 "분석 시작하기".

(** Line 196 *)
Definition app_title : str :=
  utf8 "Summize: AI 논문 분석 솔루션".

(** Line 197 *)
Definition app_intro : str :=
  utf8 "사이드바에서 PDF 파일을 업로드하고 분석을 시작하세요. AI가 논문의 핵심을 파악하고 이미지를 심층 분석해드립니다.".

(** Line 204 *)
Definition msg_choose_a_task : str :=
  utf8 "AI 논문 요약 또는 핵심 Figure 분석 중 하나 이상의 작업을 선택해주세요.".

(** Line 206 *)
Definition msg_summary_wants_key : str :=
  utf8 "AI 논문 요약을 사용하려면 사이드바에 Gemini API 키를 입력해주세요.".

(** Line 211 *)
Definition msg_extracting_text : str :=
  utf8 "PDF에서 텍스트를 추출하고 있습니다...".

(** Lines 217-219 *)
Definition msg_no_text : str :=
  utf8 "⚠️ **PDF에서 유의미한 텍스트를 추출하지 못했습니다.**

업로드하신 파일이 스캔된 문서와 같은 **이미지 기반 PDF**일 수 있습니다. 이 프로그램은 텍스트 데이터가 포함된 PDF 파일 분석에 최적화되어 있습니다.".

(** Line 226 *)
Definition label_results : str :=
  utf8 "🔍 분석 결과".

(** Line 233 *)
Definition msg_summarizing : str :=
  utf8 "AI가 논문을 상세히 요약하고 있습니다... (1~2분 소요)".

(** Line 237 *)
Definition msg_extracting_figures : str :=
  utf8 "논문에서 핵심 Figure를 추출하고 있습니다...".

(** Line 240 *)
Definition msg_done : str :=
  utf8 "분석이 완료되었습니다!".

(** Line 244 *)
Definition tab_summary : str :=
  utf8 "📖 AI 논문 요약".

(** Line 245 *)
Definition tab_text : str :=
  utf8 "📄 원본 텍스트".

(** Line 246, before the count *)
Definition tab_figures_head : str :=
  utf8 "🖼️ 핵심 Figure 분석 (".

(** Line 246, after the count *)
Definition tab_figures_tail : str :=
  utf8 "개)".

(** Line 265 *)
Definition msg_no_figures : str :=
  utf8 "이 논문에서는 'Figure' 또는 'Fig.'로 명시된 핵심 이미지를 찾을 수 없습니다.".

(** Line 268, before the number *)
Definition caption_head : str :=
  utf8 "핵심 Figure #".

(** Line 270, before the number *)
Definition button_head : str :=
  utf8 "Figure #".

(** Line 270, after the number *)
Definition button_tail : str :=
  utf8 " AI로 분석하기".

(** Line 271 *)
Definition msg_analysing : str :=
  utf8 "AI가 이미지를 심층 분석 중입니다...".

(** Line 280 *)
Definition msg_upload_first : str :=
  utf8 "왼쪽 사이드바에서 분석할 PDF 파일을 업로드 해주세요.".

(** Line 225 *)
Definition div_open : str :=
  lit "<div class=" ++ dquote ++ lit "main-container" ++ dquote ++ lit ">".

(** Line 277 *)
Definition div_close : str := lit "</div>".

(* ================================================================== *)
(** * The rest of the script: state, services and inputs *)

(** [Image.open(io.BytesIO(data))]: the image PIL made of the bytes. *)
Record PILImage : Type := mkPIL { pil_data : bytes }.

(** One part of what is sent to the model. *)
Inductive part : Type :=
| TextPart (text : str)
| ImagePart (img : PILImage).

Definition prompt : Type := list part.

(** Where an element goes: the page body, the side bar, a tab. *)
Inductive place : Type :=
| Body
| Sidebar
| Tab (index : nat).

(** What the script puts on the screen: [st.<command>(...)] with the
    text it shows, an input widget with its label, an image from bytes
    with its caption, a row of tabs. *)
Inductive element : Type :=
| Say (command : string) (body : str)
| Widget (command : string) (label : str) (disabled : bool)
| Picture (data : bytes) (caption : str)
| Tabs (labels : list str).

Record AppState : Type := mkApp {
  world : World;
  screen : list (place * element);   (* the elements shown, in order *)
  genai_calls : list prompt          (* the prompts sent to the model *)
}.

Definition App (A : Type) : Type := AppState -> Exc A * AppState.

Definition app_ret {A : Type} (a : A) : App A := fun s => (returned a, s).

Definition app_raise {A : Type} (e : exn) : App A := fun s => (raised e, s).

Definition app_bind {A B : Type} (c : App A) (k : A -> App B) : App B :=
  fun s =>
    match c s with
    | (returned a, s') => k a s'
    | (raised e, s') => (raised e, s')
    end.

Declare Scope app_scope.
Delimit Scope app_scope with app.
Notation "x <- c ;; k" := (app_bind c (fun x => k))
  (at level 61, c at next level, right associativity) : app_scope.
Notation "c ;; k" := (app_bind c (fun _ => k))
  (at level 61, right associativity) : app_scope.

(** [try: c except Exception as e: handler e] *)
Definition try_except {A : Type} (c : App A) (handler : exn -> App A)
  : App A :=
  fun s =>
    match c s with
    | (returned a, s') => (returned a, s')
    | (raised e, s') => handler e s'
    end.

(** A call that touches the side bar's progress bar, the clock or the
    document handles. *)
Definition in_world {A : Type} (c : Run A) : App A :=
  fun s =>
    let (r, w') := c (world s) in
    (r, mkApp w' (screen s) (genai_calls s)).

Definition of_exc {A : Type} (c : Exc A) : App A := fun s => (c, s).

Definition show (p : place) (e : element) : App unit :=
  fun s =>
    (returned tt, mkApp (world s) (screen s ++ [(p, e)]) (genai_calls s)).

(** What lies outside the script.  The model's answer may depend on the
    prompts it was sent before. *)
Record Services : Type := mkServices {
  fitz_decode : bytes -> Exc Document;
  genai_configure : str -> Exc unit;       (* genai.configure(api_key=...) *)
  generate_content_text : list prompt -> prompt -> Exc str;
                              (* model.generate_content(prompt).text *)
  Image_open : bytes -> Exc PILImage;
  exn_str : exn -> str                     (* the text of [{e}] *)
}.

(** [st.secrets["GEMINI_API_KEY"]] *)
Inductive secret_lookup : Type :=
| SecretValue (value : str)
| SecretKeyError
| SecretFileNotFoundError
| SecretRaises (e : exn).

(** What the user's side of one run of the script reports: the secret
    store, and what each input widget returns. *)
Record Inputs : Type := mkInputs {
  secrets_GEMINI_API_KEY : secret_lookup;
  text_input_value : str;                (* line 46 *)
  file_uploader_value : option bytes;    (* line 179, as [getvalue()] *)
  checkbox_summarize : bool;             (* line 186 *)
  checkbox_figures : bool;               (* line 187 *)
  toggle_optimization : bool;            (* line 190 *)
  button_start : bool;                   (* line 192 *)
  button_figure : nat -> bool            (* line 270, by index [i] *)
}.

(** [if api_key:] on [None] or a string *)
Definition truthy (api_key : option str) : bool :=
  match api_key with
  | Some (_ :: _) => true
  | _ => false
  end.

(** [l[i]] *)
Definition getitem {A : Type} (l : list A) (i : nat) : Exc A :=
  match nth_error l i with
  | Some x => returned x
  | None => raised IndexError
  end.

(** [st.tabs(labels)]: one container per label; Streamlit refuses an
    empty list. *)
Definition st_tabs (p : place) (labels : list str) : App (list place) :=
  match labels with
  | [] => app_raise StreamlitAPIException
  | _ :: _ =>
      (show p (Tabs labels) ;;
       app_ret (map Tab (seq 0 (length labels))))%app
  end.

(* ================================================================== *)
(** * The rest of the script: the functions *)

Section Script.

Variable svc : Services.

(** [model.generate_content(p)] and [response.text] *)
Definition generate_content (p : prompt) : App str :=
  fun s =>
    (generate_content_text svc (genai_calls s) p,
     mkApp (world s) (screen s) (genai_calls s ++ [p])).

(** Lines 41-57: the API key, from the secrets or from the side bar,
    kept only when [genai.configure] accepts it. *)
Definition configure_api_key (inp : Inputs) : App (option str) :=
  (api_key <-
     match secrets_GEMINI_API_KEY inp with
     | SecretValue value => app_ret (Some value)
     | SecretKeyError | SecretFileNotFoundError =>
         show Sidebar (Say "subheader" label_key_setup) ;;
         show Sidebar (Widget "text_input" label_key_input false) ;;
         app_ret (Some (text_input_value inp))
     | SecretRaises e => app_raise e
     end ;;
   if truthy api_key then
     match api_key with
     | Some key =>
         try_except
           (of_exc (genai_configure svc key) ;; app_ret api_key)
           (fun e =>
              show Sidebar (Say "error" (msg_configure_failed ++ exn_str svc e)) ;;
              app_ret None)
     | None => app_ret api_key
     end
   else app_ret api_key)%app.

Section WithKey.

(** The global [api_key], as lines 41-57 left it. *)
Variable api_key : option str.

(** Lines 112-145; building the model object of line 118 calls
    nothing. *)
Definition summarize_paper_with_ai (_text_to_summarize : str) : App str :=
  if negb (truthy api_key) then app_ret msg_summary_needs_key
  else
    let prompt :=
      [TextPart (summary_prompt_head ++ _text_to_summarize
                 ++ summary_prompt_tail)] in
    try_except
      (generate_content prompt)
      (fun e => app_ret (msg_summary_failed ++ exn_str svc e)).

(** Lines 148-172; the image is opened before the [try]. *)
Definition analyze_image_with_ai (_image_bytes : bytes) (_context_text : str)
  : App str :=
  if negb (truthy api_key) then app_ret msg_analysis_needs_key
  else
    (img <- of_exc (Image_open svc _image_bytes) ;;
     let prompt_parts :=
       [TextPart image_prompt_role;
        TextPart (image_prompt_context ++ _context_text);
        TextPart image_prompt_target;
        ImagePart img;
        TextPart image_prompt_request] in
     try_except
       (generate_content prompt_parts)
       (fun e => app_ret (msg_analysis_failed ++ exn_str svc e)))%app.

End WithKey.

End Script.

(** The four decorated functions, as the script calls them. *)
Record Backend : Type := mkBackend {
  call_extract_text : bytes -> bool -> App str;
  call_extract_figures : bytes -> bool -> App (list bytes);
  call_summarize : str -> App str;
  call_analyze : bytes -> str -> App str
}.

(** The functions themselves, each call computing afresh. *)
Definition plain_backend (svc : Services) (api_key : option str) : Backend :=
  mkBackend
    (fun pdf_bytes optimize =>
       in_world (extract_text_from_pdf (fitz_decode svc) pdf_bytes optimize))
    (fun pdf_bytes optimize =>
       in_world (extract_key_figures (fitz_decode svc) pdf_bytes optimize))
    (summarize_paper_with_ai svc api_key)
    (analyze_image_with_ai svc api_key).

(** What the side bar block leaves in the script's variables. *)
Inductive Controls : Type :=
| NoUpload                    (* no file: [start_analysis = False] *)
| Upload (pdf_bytes : bytes)
    (summarize_paper_option extract_images_option apply_optimization
       start_analysis : bool).

(** Lines 176-194 *)
Definition sidebar (api_key : option str) (inp : Inputs) : App Controls :=
  (show Sidebar (Say "image" logo_url) ;;
   show Sidebar (Say "header" label_settings) ;;
   show Sidebar (Widget "file_uploader" label_upload false) ;;
   match file_uploader_value inp with
   | Some pdf_bytes =>
       show Sidebar (Say "markdown" rule) ;;
       show Sidebar (Say "subheader" label_choose_tasks) ;;
       show Sidebar (Widget "checkbox" label_extract_text true) ;;
       show Sidebar (Widget "checkbox" label_summarize
                       (negb (truthy api_key))) ;;
       show Sidebar (Widget "checkbox" label_figures false) ;;
       show Sidebar (Say "markdown" rule) ;;
       show Sidebar (Say "subheader" label_optimizing) ;;
       show Sidebar (Widget "toggle" label_fast false) ;;
       show Sidebar (Say "markdown" rule) ;;
       show Sidebar (Widget "button" label_start false) ;;
       app_ret (Upload pdf_bytes (checkbox_summarize inp)
                  (checkbox_figures inp) (toggle_optimization inp)
                  (button_start inp))
   | None => app_ret NoUpload
   end)%app.

Section Flow.

Variable be : Backend.
Variable api_key : option str.
Variable inp : Inputs.

(** Lines 267-275: [for i, img_bytes in enumerate(extracted_images)],
    from index [i] on. *)
Fixpoint figure_loop (tab : place) (extracted_text : str) (i : nat)
  (extracted_images : list bytes) : App unit :=
  match extracted_images with
  | [] => app_ret tt
  | img_bytes :: rest =>
      (show tab (Picture img_bytes (caption_head ++ str_of_nat (i + 1))) ;;
       (if truthy api_key then
          show tab (Widget "button"
                      (button_head ++ str_of_nat (i + 1) ++ button_tail)
                      false) ;;
          if button_figure inp i then
            show tab (Say "spinner" msg_analysing) ;;
            analysis_result <- call_analyze be img_bytes extracted_text ;;
            show tab (Say "info" analysis_result)
          else app_ret tt
        else app_ret tt) ;;
       show tab (Say "divider" []) ;;
       figure_loop tab extracted_text (i + 1) rest)%app
  end.

(** Lines 243-275: the tabs and what goes into them. *)
Definition result_tabs (summarize_paper_option extract_images_option : bool)
  (summary_text extracted_text : str) (extracted_images : list bytes)
  : App unit :=
  let tabs_to_create : list str := [] in
  let tabs_to_create :=
    if summarize_paper_option then tabs_to_create ++ [tab_summary]
    else tabs_to_create in
  let tabs_to_create := tabs_to_create ++ [tab_text] in
  let tabs_to_create :=
    if extract_images_option
    then tabs_to_create
         ++ [tab_figures_head ++ str_of_nat (length extracted_images)
             ++ tab_figures_tail]
    else tabs_to_create in
  match tabs_to_create with
  | [] => app_ret tt
  | _ :: _ =>
      (tabs <- st_tabs Body tabs_to_create ;;
       let tab_index := 0%nat in
       tab_index <-
         (if summarize_paper_option then
            tab <- of_exc (getitem tabs tab_index) ;;
            show tab (Say "markdown" summary_text) ;;
            app_ret (tab_index + 1)%nat
          else app_ret tab_index) ;;
       tab <- of_exc (getitem tabs tab_index) ;;
       show tab (Say "text_area" extracted_text) ;;
       let tab_index := (tab_index + 1)%nat in
       if extract_images_option then
         tab <- of_exc (getitem tabs tab_index) ;;
         match extracted_images with
         | [] => show tab (Say "info" msg_no_figures)
         | _ :: _ => figure_loop tab extracted_text 0 extracted_images
         end
       else app_ret tt)%app
  end.

(** Lines 201-280 *)
Definition main (controls : Controls) : App unit :=
  match controls with
  | Upload pdf_bytes summarize_paper_option extract_images_option
      apply_optimization true =>
      if negb summarize_paper_option && negb extract_images_option then
        show Body (Say "warning" msg_choose_a_task)
      else if summarize_paper_option && negb (truthy api_key) then
        show Body (Say "error" msg_summary_wants_key)
      else
        (show Body (Say "spinner" msg_extracting_text) ;;
         extracted_text <- call_extract_text be pdf_bytes apply_optimization ;;
         if match extracted_text with [] => true | _ :: _ => false end
            || (length (strip extracted_text) <? 100)%nat
         then show Body (Say "error" msg_no_text)
         else
           show Body (Say "markdown" div_open) ;;
           show Body (Say "header" label_results) ;;
           let summary_text : str := [] in
           let extracted_images : list bytes := [] in
           summary_text <-
             (if summarize_paper_option then
                show Body (Say "spinner" msg_summarizing) ;;
                call_summarize be extracted_text
              else app_ret summary_text) ;;
           extracted_images <-
             (if extract_images_option then
                show Body (Say "spinner" msg_extracting_figures) ;;
                call_extract_figures be pdf_bytes apply_optimization
              else app_ret extracted_images) ;;
           show Body (Say "success" msg_done) ;;
           result_tabs summarize_paper_option extract_images_option
             summary_text extracted_text extracted_images ;;
           show Body (Say "markdown" div_close))%app
  | Upload _ _ _ _ false => app_ret tt
  | NoUpload => show Body (Say "info" msg_upload_first)
  end.

End Flow.

(** One run of the script, top to bottom. *)
Definition script (svc : Services) (inp : Inputs) : App unit :=
  (show Body (Say "set_page_config" page_title) ;;
   show Body (Say "markdown" style_sheet) ;;
   api_key <- configure_api_key svc inp ;;
   controls <- sidebar api_key inp ;;
   show Body (Say "title" app_title) ;;
   show Body (Say "write" app_intro) ;;
   show Body (Say "markdown" rule) ;;
   main (plain_backend svc api_key) api_key inp controls)%app.

(* ================================================================== *)
(** * The rest of the script: the decorators *)

Fixpoint cache_lookup {K V : Type} (key_eqb : K -> K -> bool) (key : K)
  (cache : list (K * V)) : option V :=
  match cache with
  | [] => None
  | (k, v) :: rest =>
      if key_eqb key k then Some v else cache_lookup key_eqb key rest
  end.

(** [@st.cache_data] on [func], as far as values go: the cache is keyed
    by the hashed arguments -- the parameters whose names do not start
    with an underscore -- and keeps what [func] returned; a call that
    raises leaves nothing behind. *)
Definition cache_data {A K V : Type} (hashed : A -> K)
  (key_eqb : K -> K -> bool) (func : A -> App V) (args : A)
  (cache : list (K * V)) (s : AppState)
  : Exc V * list (K * V) * AppState :=
  match cache_lookup key_eqb (hashed args) cache with
  | Some value => (returned value, cache, s)
  | None =>
      match func args s with
      | (returned value, s') =>
          (returned value, (hashed args, value) :: cache, s')
      | (raised e, s') => (raised e, cache, s')
      end
  end.



(** Line 111: the only parameter, [_text_to_summarize], is not
    hashed. *)
Definition cached_summarize (svc : Services) (api_key : option str)
  : str -> list (unit * str) -> AppState
    -> Exc str * list (unit * str) * AppState :=
  cache_data (fun _ => tt) (fun _ _ => true)
    (summarize_paper_with_ai svc api_key).

(** Line 147: neither [_image_bytes] nor [_context_text] is hashed. *)
Definition cached_analyze (svc : Services) (api_key : option str)
  : bytes * str -> list (unit * str) -> AppState
    -> Exc str * list (unit * str) * AppState :=
  cache_data (fun _ => tt) (fun _ _ => true)
    (fun args => analyze_image_with_ai svc api_key (fst args) (snd args)).


(* ================================================================== *)
(** * Notions about runs of the script *)

(** The computation sends no prompt to the model. *)
Definition sends_nothing {A : Type} (c : App A) : Prop :=
  forall s, genai_calls (snd (c s)) = genai_calls s.

(** Whatever the computation raises satisfies [P]. *)
Definition raises_within {A : Type} (P : exn -> Prop) (c : App A) : Prop :=
  forall s e, fst (c s) = raised e -> P e.

(** Every character of [s] is white space. *)
Definition all_space (s : str) : Prop := Forall (fun c => isspace c = true) s.

(** The backend with another function in the place of
    [analyze_image_with_ai]. *)
Definition with_analyze (be : Backend)
  (analyze : bytes -> str -> App str) : Backend :=
  mkBackend (call_extract_text be) (call_extract_figures be)
    (call_summarize be) analyze.




(* ================================================================== *)
(** * Sample services, inputs and a longer document *)

Definition long_text : str :=
  concat (repeat (lit "Measured results. ") 8).

Definition page_long : Page :=
  mkPage long_text [caption_block] [figure_image]
    (fun _ => returned image_rect_300).

Definition page_long_corrupt : Page :=
  mkPage long_text [caption_block] [broken_image]
    (fun _ => raised ValueError).

Definition long_doc : Document :=
  mkDoc [page_long] sample_extract_image.
Definition long_corrupt_doc : Document :=
  mkDoc [page_long_corrupt] sample_extract_image.

(** A page that opens with the heading of its references. *)
Definition page_references_first : Page :=
  mkPage ([LF] ++ lit "  References" ++ [LF] ++ long_text) [] []
    (fun _ => raised ValueError).

Definition references_first_doc : Document :=
  mkDoc [page_references_first; page_long] sample_extract_image.

Definition long_open (pdf_bytes : bytes) : Exc Document :=
  match pdf_bytes with
  | [tag] =>
      match Byte.to_N tag with
      | 5%N => returned long_doc
      | 6%N => returned long_corrupt_doc
      | 7%N => returned references_first_doc
      | _ => sample_open pdf_bytes
      end
  | _ => sample_open pdf_bytes
  end.

(** The model answers with the number of prompts it has seen; PIL
    opens what starts like a PNG. *)
Definition sample_services : Services :=
  mkServices long_open
    (fun _ => returned tt)
    (fun history _ =>
       returned (lit "Reply " ++ str_of_nat (length history)))
    (fun b => match b with
              | x89 :: _ => returned (mkPIL b)
              | _ => raised ValueError
              end)
    (fun _ => lit "failure").

(** The same with a model that is out of reach. *)
Definition offline_services : Services :=
  mkServices long_open
    (fun _ => returned tt)
    (fun _ _ => raised RuntimeError)
    (Image_open sample_services)
    (fun _ => lit "failure").

Definition sample_inputs (pdf : option bytes) (summarize figures : bool)
  : Inputs :=
  mkInputs (SecretValue (lit "secret-key")) [] pdf summarize figures
    true true (fun _ => false).

(** Nobody configured a key and the user typed none. *)
Definition keyless_inputs (pdf : option bytes) (summarize figures : bool)
  : Inputs :=
  mkInputs SecretKeyError [] pdf summarize figures true true
    (fun _ => false).

Definition fresh_app : AppState := mkApp fresh_world [] [].

(* ================================================================== *)
(** * Facts about strings *)

Lemma startswith_spec (p s : str) :
  startswith s p = true <-> exists t, s = p ++ t.
Proof.
  revert s; induction p as [|c p IH]; intros s; simpl.
  - split; [intros _; now exists s | reflexivity].
  - destruct s as [|d s]; simpl.
    + split; [discriminate | intros [t Ht]; discriminate].
    + rewrite andb_true_iff, N.eqb_eq, IH. split.
      * intros [-> [t ->]]. now exists t.
      * intros [t Ht]. injection Ht as -> ->. split; [reflexivity | now exists t].
Qed.

Lemma startswith_false_no_head (p s : str) :
  startswith s p = false -> forall b, s <> p ++ b.
Proof.
  intros H b ->. 
  assert (startswith (p ++ b) p = true) by (apply startswith_spec; now exists b).
  congruence.
Qed.

Lemma split_from_head (sep : str) :
  sep <> [] ->
  forall s cur, exists head rest,
    split_from sep 0 cur s = (cur ++ head) :: rest /\
    (before_first_occurrence sep s head \/ (~ occurs sep s /\ head = s)).
Proof.
  intros Hsep s; induction s as [|c s IH]; intros cur.
  - exists [], []. simpl. rewrite app_nil_r. split; [reflexivity|].
    right. split; [|reflexivity].
    intros (a & b & H). destruct a; destruct sep; simpl in H; congruence.
  - cbn [split_from]. destruct (startswith (c :: s) sep) eqn:E.
    + exists [], (split_from sep (length sep - 1) [] s).
      rewrite app_nil_r. split; [reflexivity|]. left. split.
      * apply startswith_spec in E. destruct E as [t E]. now exists t.
      * intros; simpl; lia.
    + destruct (IH (cur ++ [c])) as (head & rest & Heq & Hcase).
      exists (c :: head), rest. rewrite Heq, <- app_assoc. split; [reflexivity|].
      destruct Hcase as [[[b Hb] Hmin] | [Hno ->]].
      * left. split.
        -- exists b. simpl. now rewrite Hb.
        -- intros a' b' H. destruct a' as [|c' a'].
           ++ exfalso. exact (startswith_false_no_head _ _ E _ H).
           ++ simpl in H. injection H as _ H. simpl. apply le_n_S. eapply Hmin; eauto.
      * right. split; [|reflexivity].
        intros (a & b & H). destruct a as [|c' a].
        -- exact (startswith_false_no_head _ _ E _ H).
        -- simpl in H. injection H as _ H. apply Hno. now exists a, b.
Qed.

Lemma lstrip_suffix (s : str) : exists l, s = l ++ lstrip s.
Proof.
  induction s as [|c s [l IH]]; simpl.
  - now exists [].
  - destruct (isspace c).
    + exists (c :: l). simpl. now rewrite <- IH.
    + now exists [].
Qed.

Lemma strip_infix (s : str) : exists l r, s = l ++ strip s ++ r.
Proof.
  unfold strip, rstrip.
  destruct (lstrip_suffix s) as [l Hl].
  destruct (lstrip_suffix (rev (lstrip s))) as [r Hr].
  exists l, (rev r).
  rewrite <- rev_app_distr, <- Hr, rev_involutive. exact Hl.
Qed.

Lemma occurs_strip (k s : str) : occurs k (strip s) -> occurs k s.
Proof.
  intros (a & b & H). destruct (strip_infix s) as (l & r & Hs).
  exists (l ++ a), (b ++ r). rewrite Hs, H. now rewrite !app_assoc.
Qed.

Lemma line_anchored_occurs (k s : str) : line_anchored k s -> occurs k s.
Proof. intros (a & b & H & _). now exists a, b. Qed.

Lemma occursb_spec (k s : str) : occursb k s = true <-> occurs k s.
Proof.
  induction s as [|c s IH]; simpl; rewrite orb_true_iff, startswith_spec.
  - split.
    + intros [[t H] | H]; [now exists [], t | discriminate].
    + intros (a & b & H). left. destruct a; [now exists b | discriminate].
  - rewrite IH. split.
    + intros [[t H] | (a & b & H)]; [now exists [], t|].
      exists (c :: a), b. simpl. now rewrite H.
    + intros (a & b & H). destruct a as [|c' a]; [left; now exists b|].
      right. simpl in H. injection H as _ H. now exists a, b.
Qed.

(* ================================================================== *)
(** * Facts about the two patterns *)

Lemma accept_Lit_case_sensitive (m : bool) (fl : flags) (k : str) :
  IGNORECASE fl = false ->
  forall prev s, accept m (Lit fl k) prev s (fun _ _ => true) = startswith s k.
Proof.
  intros Hfl. induction k as [|p k IH]; intros prev s; simpl.
  - reflexivity.
  - destruct s as [|c s]; [reflexivity|].
    rewrite Hfl. f_equal. apply IH.
Qed.

Lemma match_here_heading (k : str) (prev : option char) (s : str) :
  match_here true (heading_pattern k re_MULTILINE) prev s
  = at_bol true prev && startswith s k.
Proof.
  unfold match_here, heading_pattern, re_escape. simpl.
  f_equal. now apply accept_Lit_case_sensitive.
Qed.

Lemma char_before_cons (prev : option char) (c : char) (a : str) :
  char_before prev (c :: a) = char_before (Some c) a.
Proof. reflexivity. Qed.

Lemma search_heading (k : str) :
  forall s prev,
    search_from true (heading_pattern k re_MULTILINE) prev s = true <->
    exists a b, s = a ++ k ++ b /\ at_bol true (char_before prev a) = true.
Proof.
  induction s as [|c s IH]; intros prev; simpl search_from;
    rewrite match_here_heading, orb_true_iff, andb_true_iff, startswith_spec.
  - split.
    + intros [[Hb [t Ht]] | H]; [|discriminate]. now exists [], t.
    + intros (a & b & H & Hb). left. destruct a as [|? ?]; [|discriminate].
      split; [exact Hb | now exists b].
  - rewrite IH. split.
    + intros [[Hb [t Ht]] | (a & b & H & Hb)].
      * now exists [], t.
      * exists (c :: a), b. rewrite char_before_cons. simpl. now rewrite H.
    + intros (a & b & H & Hb). destruct a as [|c' a].
      * left. split; [exact Hb | now exists b].
      * right. simpl in H. injection H as -> H. exists a, b. now split.
Qed.

Lemma at_bol_start (a : str) :
  at_bol true (char_before None a) = true <->
  a = [] \/ exists a', a = a' ++ [LF].
Proof.
  destruct a as [|c a] using rev_ind.
  - simpl. split; [now left | reflexivity].
  - unfold char_before. rewrite fold_left_app. simpl. rewrite N.eqb_eq. split.
    + intros ->. right. now exists a.
    + intros [H | [a' H]].
      * now destruct a.
      * apply app_inj_tail in H. tauto.
Qed.

(** The heading test of line 70 holds exactly when the keyword occurs
    at the start of a line of the searched string. *)
Lemma heading_search_spec (k s : str) :
  re_search (heading_pattern k) s re_MULTILINE = true <-> line_anchored k s.
Proof.
  unfold re_search, line_anchored. simpl MULTILINE. rewrite search_heading.
  split; intros (a & b & H & Hb); exists a, b; (split; [exact H|]);
    now apply at_bol_start.
Qed.

(* ================================================================== *)
(** * The string operations and the patterns on small inputs *)

Example split_twice :
  split (lit "aXXbXXXc") (lit "XX") = returned [lit "a"; lit "b"; lit "Xc"].
Proof. reflexivity. Qed.

Example split_at_end :
  split (lit "aXX") (lit "XX") = returned [lit "a"; []].
Proof. reflexivity. Qed.

Example split_absent :
  exc_bind (split (lit "abc") (lit "XX")) getitem0 = returned (lit "abc").
Proof. reflexivity. Qed.

Example strip_both_ends :
  strip ([LF] ++ lit "  a b " ++ [160%N]) = lit "a b".
Proof. reflexivity. Qed.

Example heading_at_line_start :
  re_search (heading_pattern (lit "References"))
    (lit "Results" ++ [LF] ++ lit "References") re_MULTILINE = true.
Proof. reflexivity. Qed.

Example heading_inside_line :
  re_search (heading_pattern (lit "References"))
    (lit "See References") re_MULTILINE = false.
Proof. reflexivity. Qed.

Example heading_needs_multiline :
  re_search (heading_pattern (lit "References"))
    (lit "Results" ++ [LF] ++ lit "References") no_flags = false.
Proof. reflexivity. Qed.

Example caption_figure :
  re_search caption_pattern (lit "Figure 1: Example structure") re_IGNORECASE
  = true.
Proof. reflexivity. Qed.

Example caption_fig_upper :
  re_search caption_pattern (lit "FIG.12") re_IGNORECASE = true.
Proof. reflexivity. Qed.

Example caption_fig_needs_period :
  re_search caption_pattern (lit "fig 3") re_IGNORECASE = false.
Proof. reflexivity. Qed.

Example caption_table :
  re_search caption_pattern (lit "Table 1: Data") re_IGNORECASE = false.
Proof. reflexivity. Qed.

(** Dotless i, a no-break space and an Arabic-Indic digit. *)
Example caption_unicode :
  re_search caption_pattern
    ([70; 0x131; 103; 117; 114; 101; 0xa0; 0x663]%N) re_IGNORECASE = true.
Proof. reflexivity. Qed.

Example caption_case_sensitive :
  re_search caption_pattern (lit "figure 1") no_flags = false.
Proof. reflexivity. Qed.

(* ================================================================== *)
(** * The text extractor *)

(** Case analysis on a member of [reference_keywords]. *)
Ltac each_keyword H :=
  destruct H as [<- | [<- | [<- | [<- | []]]]].

Lemma reference_keywords_nonempty (kw : str) :
  In kw reference_keywords -> kw <> [].
Proof. intros H. each_keyword H; discriminate. Qed.

Lemma keyword_loop_no_heading (keywords : list str) (text : str)
  (st : text_state) :
  (forall kw, In kw keywords -> ~ line_anchored kw (strip text)) ->
  keyword_loop keywords text st = returned st.
Proof.
  induction keywords as [|kw kws IH]; intros Hno; simpl; [reflexivity|].
  destruct (re_search (heading_pattern kw) (strip text) re_MULTILINE) eqn:E.
  - apply heading_search_spec in E. exfalso. apply (Hno kw); simpl; auto.
  - apply IH. intros kw' Hin. apply Hno. simpl; auto.
Qed.

Lemma split_head_before_first (text kw : str) :
  kw <> [] -> occurs kw text ->
  exists head,
    before_first_occurrence kw text head /\
    exc_bind (split text kw) getitem0 = returned head.
Proof.
  intros Hne Hocc. unfold split.
  destruct kw as [|c kw]; [congruence|].
  destruct (split_from_head (c :: kw) Hne text []) as (head & rest & Heq & Hcase).
  exists head. rewrite Heq. simpl. split; [|reflexivity].
  destruct Hcase as [H | [H _]]; [exact H | contradiction].
Qed.

Lemma keyword_loop_heading (ks1 : list str) (kw : str) (ks2 : list str)
  (text : str) (st : text_state) :
  kw <> [] ->
  (forall kw', In kw' ks1 -> ~ line_anchored kw' (strip text)) ->
  line_anchored kw (strip text) ->
  exists head,
    before_first_occurrence kw text head /\
    keyword_loop (ks1 ++ kw :: ks2) text st
    = returned (mkText (full_text st ++ head) true).
Proof.
  intros Hne. induction ks1 as [|k ks1 IH]; intros Hno Hhit; simpl.
  - assert (E : re_search (heading_pattern kw) (strip text) re_MULTILINE = true)
      by now apply heading_search_spec.
    rewrite E.
    destruct (split_head_before_first text kw Hne) as (head & Hfirst & Hrun).
    { now apply occurs_strip, line_anchored_occurs. }
    exists head. split; [exact Hfirst|].
    unfold exc_bind in *. destruct (split text kw); [|discriminate].
    now rewrite Hrun.
  - destruct (re_search (heading_pattern k) (strip text) re_MULTILINE) eqn:E.
    + apply heading_search_spec in E. exfalso. apply (Hno k); simpl; auto.
    + apply IH; [|exact Hhit]. intros kw' Hin. apply Hno. simpl; auto.
Qed.

Lemma text_page_stopped (optimize : bool) (page : Page) (st : text_state) :
  stop_extraction st = true -> text_page optimize page st = returned st.
Proof.
  intros H. unfold text_page. rewrite H, andb_false_r. reflexivity.
Qed.

Lemma text_page_whole (optimize : bool) (page : Page) (st : text_state) :
  stop_extraction st = false ->
  optimize = false \/
    (forall kw, In kw reference_keywords -> ~ heading_on kw page) ->
  text_page optimize page st
  = returned (mkText (full_text st ++ get_text page) false).
Proof.
  intros Hst Hcase. unfold text_page. rewrite Hst.
  destruct optimize; cbn [andb negb].
  - destruct Hcase as [H | Hno]; [discriminate|].
    rewrite keyword_loop_no_heading by exact Hno. cbn [exc_bind].
    rewrite Hst. reflexivity.
  - reflexivity.
Qed.

Lemma text_loop_stopped (optimize : bool) (doc_pages : list Page)
  (st : text_state) :
  stop_extraction st = true -> text_loop optimize doc_pages st = returned st.
Proof.
  intros H. induction doc_pages as [|p ps IH]; simpl; [reflexivity|].
  rewrite text_page_stopped by exact H. exact IH.
Qed.

Lemma text_loop_whole (optimize : bool) (doc_pages : list Page) :
  optimize = false \/
    (forall page kw, In page doc_pages -> In kw reference_keywords ->
                     ~ heading_on kw page) ->
  forall st, stop_extraction st = false ->
    text_loop optimize doc_pages st
    = returned (mkText (full_text st ++ all_text doc_pages) false).
Proof.
  induction doc_pages as [|p ps IH]; intros Hcase st Hst; simpl.
  - unfold all_text. simpl. rewrite app_nil_r. destruct st; simpl in *.
    now subst.
  - rewrite text_page_whole; [|exact Hst|].
    + simpl. rewrite IH; [| |reflexivity].
      * simpl. unfold all_text. simpl. now rewrite app_assoc.
      * destruct Hcase as [H | H]; [now left | right].
        intros page kw Hp. apply H. simpl; auto.
    + destruct Hcase as [H | H]; [now left | right].
      intros kw. apply H. simpl; auto.
Qed.

Lemma text_loop_app (optimize : bool) (ps qs : list Page) :
  forall st,
    text_loop optimize (ps ++ qs) st
    = exc_bind (text_loop optimize ps st) (text_loop optimize qs).
Proof.
  induction ps as [|p ps IH]; intros st; simpl; [reflexivity|].
  destruct (text_page optimize p st); simpl; [apply IH | reflexivity].
Qed.

Lemma text_loop_truncates (before : list Page) (page : Page)
  (after : list Page) (ks1 : list str) (kw : str) (ks2 : list str) :
  (forall q k, In q before -> In k reference_keywords -> ~ heading_on k q) ->
  reference_keywords = ks1 ++ kw :: ks2 ->
  (forall k, In k ks1 -> ~ heading_on k page) ->
  heading_on kw page ->
  exists head,
    before_first_occurrence kw (get_text page) head /\
    text_loop true (before ++ page :: after) (mkText [] false)
    = returned (mkText (all_text before ++ head) true).
Proof.
  intros Hbefore Hks Hks1 Hhit.
  assert (Hne : kw <> []).
  { apply reference_keywords_nonempty. rewrite Hks. apply in_elt. }
  destruct (keyword_loop_heading ks1 kw ks2 (get_text page)
              (mkText (all_text before) false) Hne Hks1 Hhit)
    as (head & Hfirst & Hrun).
  exists head. split; [exact Hfirst|].
  rewrite text_loop_app, text_loop_whole; [|now right|reflexivity].
  cbn [exc_bind text_loop full_text app]. unfold text_page at 1.
  cbn [stop_extraction andb negb]. rewrite Hks, Hrun.
  cbn [exc_bind stop_extraction full_text].
  apply text_loop_stopped. reflexivity.
Qed.

Lemma extract_text_unfold (decode : bytes -> Exc Document)
  (pdf_bytes : bytes) (optimize : bool) (doc : Document) (w : World) :
  decode pdf_bytes = returned doc ->
  extract_text_from_pdf decode pdf_bytes optimize w
  = match text_loop optimize (pages doc) (mkText [] false) with
    | returned st => (returned (full_text st), w)
    | raised e =>
        (raised e, mkWorld (ui w) (clock w) (S (open_documents w)))
    end.
Proof.
  intros Hopen. unfold extract_text_from_pdf, run_bind, fitz_open, lift.
  rewrite Hopen.
  destruct (text_loop optimize (pages doc) (mkText [] false));
    [destruct w|]; reflexivity.
Qed.

(** C1.  With [optimize] set, on the first page of the document that
    shows a reference keyword at the start of a line of its trimmed
    text, the first such keyword in the order of [reference_keywords]
    (References, REFERENCES, the Korean keyword, Bibliography) decides
    the cut: the extracted text is the whole text of every earlier page
    followed by the part of this page's untrimmed text before the first
    occurrence of that keyword, and nothing of the rest of this page or
    of any later page. *)
Theorem extract_text_truncates_at_first_heading
  (decode : bytes -> Exc Document) (pdf_bytes : bytes) (doc : Document)
  (before : list Page) (page : Page) (after : list Page)
  (ks1 : list str) (kw : str) (ks2 : list str) (w : World) :
  decode pdf_bytes = returned doc ->
  pages doc = before ++ page :: after ->
  (forall q k, In q before -> In k reference_keywords -> ~ heading_on k q) ->
  reference_keywords = ks1 ++ kw :: ks2 ->
  (forall k, In k ks1 -> ~ heading_on k page) ->
  heading_on kw page ->
  exists head,
    before_first_occurrence kw (get_text page) head /\
    extract_text_from_pdf decode pdf_bytes true w
    = (returned (all_text before ++ head), w).
Proof.
  intros Hopen Hpages Hbefore Hks Hks1 Hhit.
  destruct (text_loop_truncates before page after ks1 kw ks2
              Hbefore Hks Hks1 Hhit) as (head & Hfirst & Hrun).
  exists head. split; [exact Hfirst|].
  rewrite (extract_text_unfold _ _ true _ w Hopen), Hpages, Hrun.
  reflexivity.
Qed.

Lemma extract_text_truncates_witness :
  exists head,
    before_first_occurrence (lit "References") (get_text page_body) head /\
    extract_text_from_pdf sample_open [x01] true fresh_world
    = (returned (all_text [page_cover] ++ head), fresh_world).
Proof.
  apply (extract_text_truncates_at_first_heading sample_open [x01] sample_doc
           [page_cover] page_body [page_tail]
           [] (lit "References")
           [lit "REFERENCES"; chamgomunheon; lit "Bibliography"]).
  - reflexivity.
  - reflexivity.
  - intros q k [<- | []] Hk H. unfold heading_on in H.
    apply heading_search_spec in H.
    each_keyword Hk; vm_compute in H; discriminate.
  - reflexivity.
  - intros k [].
  - unfold heading_on. apply heading_search_spec. vm_compute. reflexivity.
Defined.

(** C6.  Without [optimize], the extracted text is the text of every
    page of the document, in page order, nothing left out or cut. *)
Theorem extract_text_plain_is_all_text
  (decode : bytes -> Exc Document) (pdf_bytes : bytes) (doc : Document)
  (w : World) :
  decode pdf_bytes = returned doc ->
  extract_text_from_pdf decode pdf_bytes false w
  = (returned (all_text (pages doc)), w).
Proof.
  intros Hopen. rewrite (extract_text_unfold _ _ false _ w Hopen).
  rewrite text_loop_whole; [reflexivity | now left | reflexivity].
Qed.

Lemma extract_text_plain_witness :
  extract_text_from_pdf sample_open [x01] false fresh_world
  = (returned (all_text [page_cover; page_body; page_tail]), fresh_world).
Proof.
  apply (extract_text_plain_is_all_text sample_open [x01] sample_doc).
  reflexivity.
Defined.

(** C5.  When no reference keyword occurs anywhere in the text of any
    page, [optimize] changes nothing: both settings return the same
    string. *)
Theorem extract_text_optimize_no_keyword
  (decode : bytes -> Exc Document) (pdf_bytes : bytes) (doc : Document)
  (w : World) :
  decode pdf_bytes = returned doc ->
  (forall page kw, In page (pages doc) -> In kw reference_keywords ->
                   ~ occurs kw (get_text page)) ->
  extract_text_from_pdf decode pdf_bytes true w
  = extract_text_from_pdf decode pdf_bytes false w.
Proof.
  intros Hopen Hno. rewrite !(extract_text_unfold _ _ _ _ w Hopen).
  rewrite !text_loop_whole; try reflexivity; [now left | right].
  intros page kw Hp Hk Hhead. apply (Hno page kw Hp Hk).
  now apply occurs_strip, line_anchored_occurs.
Qed.

Lemma extract_text_no_keyword_witness :
  extract_text_from_pdf sample_open [x02] true fresh_world
  = extract_text_from_pdf sample_open [x02] false fresh_world.
Proof.
  apply (extract_text_optimize_no_keyword sample_open [x02] plain_doc).
  - reflexivity.
  - intros page kw Hp Hk H. apply occursb_spec in H.
    destruct Hp as [<- | [<- | []]]; each_keyword Hk; vm_compute in H;
      discriminate.
Defined.

(* ================================================================== *)
(** * The figure extractor *)

(** The proximity test of line 98, written with [abs], is the test the
    specification states without it. *)
Lemma proximity_test_spec (tb : TextBlock) (img_bbox : Rect) :
  negb (Qle_bool (tb1 tb) (y1 img_bbox)) &&
  negb (Qle_bool 70 (Qabs (tb1 tb - y1 img_bbox)))
  = below_within tb img_bbox.
Proof.
  unfold below_within.
  destruct (Qle_bool (tb1 tb) (y1 img_bbox)) eqn:E; [reflexivity|].
  cbn [negb andb]. f_equal. apply Qleb_comp; [reflexivity|].
  apply Qabs_pos.
  assert (H : y1 img_bbox < tb1 tb).
  { apply Qnot_le_lt. intros H. apply Qle_bool_iff in H. congruence. }
  apply Qlt_le_weak in H. unfold Qminus. 
  rewrite <- (Qplus_opp_r (y1 img_bbox)).
  apply Qplus_le_compat; [exact H | apply Qle_refl].
Qed.

Lemma caption_loop_spec (page_blocks : list TextBlock) (img_bbox : Rect) :
  forall acc,
    caption_loop page_blocks img_bbox acc
    = acc ++ concat (map tb4 (filter (fun tb => below_within tb img_bbox)
                                page_blocks)).
Proof.
  induction page_blocks as [|tb tbs IH]; intros acc; simpl.
  - now rewrite app_nil_r.
  - rewrite proximity_test_spec.
    destruct (below_within tb img_bbox); simpl; rewrite IH.
    + now rewrite app_assoc.
    + reflexivity.
Qed.

Lemma readable_never_raises (doc : Document) (page : Page)
  (img_info : ImgInfo) (e : exn) :
  readable doc page img_info -> ~ retrieval_raises doc page img_info e.
Proof.
  intros [[r Hr] Hb] [H | [Hq [H | [H _]]]].
  - congruence.
  - destruct (Hb Hq) as [b Hp]. unfold payload in Hp. rewrite H in Hp.
    discriminate.
  - destruct (Hb Hq) as [b Hp]. congruence.
Qed.

(** What the image loop of one page does, whatever the page holds. *)
Lemma image_loop_outcome (doc : Document) (page : Page) :
  forall images key_figures,
    match image_loop doc page (get_text_blocks page) images key_figures with
    | returned figs =>
        Forall (readable doc page) images /\
        figs = key_figures ++ flat_map (figure_of doc page) images
    | raised e =>
        exists img_info, In img_info images /\
                         retrieval_raises doc page img_info e
    end.
Proof.
  induction images as [|img rest IH]; intros acc; cbn [image_loop].
  - split; [constructor | simpl; now rewrite app_nil_r].
  - unfold exc_bind at 1.
    destruct (get_image_bbox page img) as [r|e] eqn:Hbox.
    2:{ exists img. split; [now left | now left]. }
    rewrite caption_loop_spec. cbn [app].
    change (re_search caption_pattern _ re_IGNORECASE)
      with (has_caption page r).
    assert (Hq : qualifies page img = has_caption page r)
      by (unfold qualifies; now rewrite Hbox).
    destruct (has_caption page r) eqn:Hcap.
    + unfold exc_bind at 1.
      destruct (extract_image doc (img_xref img)) as [base|e] eqn:Hx.
      2:{ exists img. split; [now left|]. right. split; [exact Hq | now left]. }
      unfold exc_bind at 1, getitem_image.
      destruct (image base) as [b|] eqn:Hb.
      2:{ exists img. split; [now left|]. right. split; [exact Hq|]. right.
          unfold payload. now rewrite Hx. }
      specialize (IH (acc ++ [b])).
      destruct (image_loop doc page (get_text_blocks page) rest (acc ++ [b]))
        as [figs|e].
      * destruct IH as [Hall ->]. split.
        -- constructor; [|exact Hall]. split; [now exists r|].
           intros _. exists b. unfold payload. now rewrite Hx.
        -- cbn [flat_map]. unfold figure_of at 2, payload.
           rewrite Hq, Hx, Hb. now rewrite <- app_assoc.
      * destruct IH as (i & Hin & Hr). exists i. split; [now right | exact Hr].
    + specialize (IH acc).
      destruct (image_loop doc page (get_text_blocks page) rest acc)
        as [figs|e].
      * destruct IH as [Hall ->]. split.
        -- constructor; [|exact Hall]. split; [now exists r|].
           intros H. congruence.
        -- cbn [flat_map]. unfold figure_of at 2. now rewrite Hq.
      * destruct IH as (i & Hin & Hr). exists i. split; [now right | exact Hr].
Qed.

Lemma fraction_in_range (done total : Z) :
  (1 <= done <= total)%Z ->
  Qle_bool 0 (inject_Z done / inject_Z total) &&
  Qle_bool (inject_Z done / inject_Z total) 1 = true.
Proof.
  intros [Hlo Hhi].
  assert (Hpos : 0 < inject_Z total).
  { change 0 with (inject_Z 0). rewrite <- Zlt_Qlt. lia. }
  apply andb_true_iff. split; apply Qle_bool_iff.
  - apply Qle_shift_div_l; [exact Hpos|]. rewrite Qmult_0_l.
    change 0 with (inject_Z 0). rewrite <- Zle_Qle. lia.
  - apply Qle_shift_div_r; [exact Hpos|]. rewrite Qmult_1_l.
    rewrite <- Zle_Qle. exact Hhi.
Qed.

Lemma page_loop_step (doc : Document) (total i : Z) (page : Page)
  (rest : list Page) (key_figures figs : list bytes) (w : World) :
  image_loop doc page (get_text_blocks page) (get_images page) key_figures
  = returned figs ->
  (1 <= i + 1 <= total)%Z ->
  page_loop doc total i (page :: rest) key_figures w
  = page_loop doc total (i + 1) rest figs
      (mkWorld
         (ui w ++ [ProgressUpdated (inject_Z (i + 1) / inject_Z total)
                     (i + 1) total])
         (clock w + (1 # 100)) (open_documents w)).
Proof.
  intros Himg Hrange. cbn [page_loop].
  unfold run_bind, lift, truediv, progress_bar_progress. rewrite Himg.
  replace (total =? 0)%Z with false by (symmetry; apply Z.eqb_neq; lia).
  rewrite (fraction_in_range _ _ Hrange). reflexivity.
Qed.

Lemma page_loop_step_raised (doc : Document) (total i : Z) (page : Page)
  (rest : list Page) (key_figures : list bytes) (e : exn) (w : World) :
  image_loop doc page (get_text_blocks page) (get_images page) key_figures
  = raised e ->
  page_loop doc total i (page :: rest) key_figures w = (raised e, w).
Proof.
  intros Himg. cbn [page_loop]. unfold run_bind, lift. now rewrite Himg.
Qed.

(** What the page loop does from index [i] on, whatever the pages
    hold: the progress it reports, and the figures it returns or the
    retrieval that stopped it. *)
Lemma page_loop_outcome (doc : Document) (total : Z) :
  forall todo i key_figures w,
    (0 <= i)%Z -> (i + Z.of_nat (length todo) = total)%Z ->
    exists evs,
      ui (snd (page_loop doc total i todo key_figures w)) = ui w ++ evs /\
      Forall (progress_ok total) evs /\
      match fst (page_loop doc total i todo key_figures w) with
      | returned figs =>
          Forall (page_readable doc) todo /\
          figs = key_figures ++ figures_of_pages doc todo
      | raised e =>
          exists page img_info,
            In page todo /\ In img_info (get_images page) /\
            retrieval_raises doc page img_info e
      end.
Proof.
  induction todo as [|page rest IH]; intros i acc w Hi Htot.
  - exists []. simpl. rewrite !app_nil_r. repeat split; constructor.
  - pose proof (image_loop_outcome doc page (get_images page) acc) as Himg.
    destruct (image_loop doc page (get_text_blocks page) (get_images page) acc)
      as [figs1|e] eqn:Hrun.
    2:{ rewrite (page_loop_step_raised _ _ _ _ _ _ _ _ Hrun).
        exists []. cbn [fst snd]. rewrite app_nil_r.
        split; [reflexivity|]. split; [constructor|].
        destruct Himg as (img & Hin & Hr). exists page, img.
        split; [now left|]. now split. }
    destruct Himg as [Hread Hfigs].
    assert (Hrange : (1 <= i + 1 <= total)%Z).
    { cbn [length] in Htot. lia. }
    rewrite (page_loop_step _ _ _ _ rest _ _ w Hrun Hrange).
    set (w1 := mkWorld _ _ _).
    destruct (IH (i + 1)%Z figs1 w1) as (evs & Hui & Hok & Hres).
    { lia. }
    { cbn [length] in Htot. lia. }
    exists (ProgressUpdated (inject_Z (i + 1) / inject_Z total) (i + 1) total
              :: evs).
    split; [|split].
    + rewrite Hui. subst w1. cbn [ui]. now rewrite <- app_assoc.
    + constructor; [|exact Hok]. simpl. now repeat split.
    + destruct (fst (page_loop doc total (i + 1) rest figs1 w1)) as [figs|e].
      * destruct Hres as [Hall ->]. split.
        -- constructor; [exact Hread | exact Hall].
        -- rewrite Hfigs. unfold figures_of_pages, figures_of_page.
           cbn [flat_map]. now rewrite app_assoc.
      * destruct Hres as (p & img & Hp & Hin & Hr).
        exists p, img. repeat split; [now right | exact Hin | exact Hr].
Qed.

Lemma extract_key_figures_unfold (decode : bytes -> Exc Document)
  (pdf_bytes : bytes) (optimize : bool) (doc : Document) (w : World) :
  decode pdf_bytes = returned doc ->
  extract_key_figures decode pdf_bytes optimize w
  = let todo := pages_to_process doc optimize in
    match page_loop doc (Z.of_nat (length todo)) 0 todo []
            (mkWorld (ui w ++ [ProgressCreated 0]) (clock w)
               (S (open_documents w))) with
    | (returned key_figures, w') =>
        (returned key_figures,
         mkWorld (ui w' ++ [ProgressEmptied]) (clock w')
           (Nat.pred (open_documents w')))
    | (raised e, w') => (raised e, w')
    end.
Proof.
  intros Hopen. unfold extract_key_figures, run_bind, fitz_open.
  rewrite Hopen. reflexivity.
Qed.

(** The whole call: what it shows on the side bar and how it ends. *)
Lemma extract_key_figures_outcome (decode : bytes -> Exc Document)
  (pdf_bytes : bytes) (optimize : bool) (doc : Document) (w : World) :
  decode pdf_bytes = returned doc ->
  let todo := pages_to_process doc optimize in
  let run := extract_key_figures decode pdf_bytes optimize w in
  (exists evs, ui (snd run) = ui w ++ evs /\
               Forall (progress_ok (Z.of_nat (length todo))) evs) /\
  scan_outcome doc todo (fst run).
Proof.
  intros Hopen todo run. subst run.
  rewrite (extract_key_figures_unfold _ _ optimize _ w Hopen).
  fold todo. cbv zeta.
  set (w0 := mkWorld _ _ _).
  destruct (page_loop_outcome doc (Z.of_nat (length todo)) todo 0 [] w0)
    as (evs & Hui & Hok & Hres); [lia | lia |].
  destruct (page_loop doc (Z.of_nat (length todo)) 0 todo [] w0)
    as [[figs|e] w'] eqn:Hrun; cbn [fst snd ui] in *.
  - split; [|exact Hres].
    exists (ProgressCreated 0 :: evs ++ [ProgressEmptied]). split.
    + rewrite Hui. subst w0. cbn [ui]. now rewrite <- !app_assoc.
    + constructor; [exact I|]. apply Forall_app. split; [exact Hok|].
      constructor; [exact I | constructor].
  - split; [|exact Hres].
    exists (ProgressCreated 0 :: evs). split.
    + rewrite Hui. subst w0. cbn [ui]. now rewrite <- !app_assoc.
    + constructor; [exact I | exact Hok].
Qed.

Lemma scan_outcome_readable (doc : Document) (scanned : list Page)
  (result : Exc (list bytes)) :
  scan_outcome doc scanned result ->
  Forall (page_readable doc) scanned ->
  result = returned (figures_of_pages doc scanned).
Proof.
  intros Hout Hall. destruct result as [figs|e]; simpl in Hout.
  - destruct Hout as [_ ->]. reflexivity.
  - destruct Hout as (page & img & Hp & Hin & Hr). exfalso.
    rewrite Forall_forall in Hall. specialize (Hall page Hp).
    unfold page_readable in Hall. rewrite Forall_forall in Hall.
    exact (readable_never_raises _ _ _ _ (Hall img Hin) Hr).
Qed.


Lemma in_figures_of_pages (doc : Document) (scanned : list Page) (b : bytes) :
  In b (figures_of_pages doc scanned) ->
  exists page img_info,
    In page scanned /\ In img_info (get_images page) /\
    qualifies page img_info = true /\ payload doc img_info = Some b.
Proof.
  unfold figures_of_pages, figures_of_page. intros H.
  apply in_flat_map in H. destruct H as (page & Hp & H).
  apply in_flat_map in H. destruct H as (img & Hin & H).
  exists page, img. unfold figure_of in H.
  destruct (qualifies page img); [|destruct H].
  destruct (payload doc img) as [b'|]; [|destruct H].
  destruct H as [<- | []]. now repeat split.
Qed.

Lemma figures_per_enumeration (doc : Document) (scanned : list Page) :
  Forall (page_readable doc) scanned ->
  Forall2 (fun img_info b => payload doc img_info = Some b)
    (qualifying_enumerations scanned) (figures_of_pages doc scanned).
Proof.
  induction 1 as [|page rest Hpage _ IH]; [constructor|].
  unfold qualifying_enumerations, figures_of_pages. cbn [flat_map].
  apply Forall2_app; [|exact IH].
  unfold figures_of_page. unfold page_readable in Hpage.
  induction Hpage as [|img imgs [_ Himg] _ IHi]; [constructor|].
  cbn [filter flat_map]. unfold figure_of at 1.
  destruct (qualifies page img).
  - destruct (Himg eq_refl) as [b Hb]. rewrite Hb.
    constructor; [exact Hb | exact IHi].
  - exact IHi.
Qed.

Lemma count_per_enumeration (doc : Document) (x : Z) (b : bytes) :
  (forall img_info, img_xref img_info = x -> payload doc img_info = Some b) ->
  forall enumerated figs,
    Forall2 (fun img_info b' => payload doc img_info = Some b')
      enumerated figs ->
    (count_occ Z.eq_dec (map img_xref enumerated) x
     <= count_occ bytes_eq_dec figs b)%nat.
Proof.
  intros Hx enumerated figs H.
  induction H as [|img b' imgs bs Hp _ IH]; [reflexivity|].
  cbn [map count_occ].
  destruct (Z.eq_dec (img_xref img) x) as [E|E].
  - rewrite (Hx img E) in Hp. injection Hp as ->.
    destruct (bytes_eq_dec b' b'); [lia | congruence].
  - destruct (bytes_eq_dec b' b); lia.
Qed.

Lemma page_loop_result_any_world (doc : Document) (total : Z) :
  forall todo i key_figures w1 w2,
    fst (page_loop doc total i todo key_figures w1)
    = fst (page_loop doc total i todo key_figures w2).
Proof.
  induction todo as [|page rest IH]; intros i acc w1 w2; [reflexivity|].
  cbn [page_loop]. unfold run_bind, lift, progress_bar_progress, emit,
    time_sleep.
  destruct (image_loop doc page (get_text_blocks page) (get_images page) acc);
    [|reflexivity].
  destruct (truediv (i + 1) total) as [value|e]; [|reflexivity].
  destruct (Qle_bool 0 value && Qle_bool value 1); [|reflexivity].
  apply IH.
Qed.

(* ================================================================== *)
(** * The claims about the figure extractor *)



(** C3, as the code has it.  A scan returns figures only when every
    retrieval it makes succeeds: the bounding box of each image on a
    scanned page and the bytes of each image that qualifies.  When one
    such retrieval fails, the call raises that error and returns
    nothing. *)
Theorem unreadable_image_aborts_the_scan
  (decode : bytes -> Exc Document) (pdf_bytes : bytes) (optimize : bool)
  (doc : Document) (w : World) :
  decode pdf_bytes = returned doc ->
  (Forall (page_readable doc) (pages_to_process doc optimize) ->
   fst (extract_key_figures decode pdf_bytes optimize w)
   = returned (figures_of_pages doc (pages_to_process doc optimize))) /\
  (forall page img_info,
      In page (pages_to_process doc optimize) ->
      In img_info (get_images page) ->
      ~ readable doc page img_info ->
      exists e page' img',
        In page' (pages_to_process doc optimize) /\
        In img' (get_images page') /\
        retrieval_raises doc page' img' e /\
        fst (extract_key_figures decode pdf_bytes optimize w) = raised e).
Proof.
  intros Hopen.
  destruct (extract_key_figures_outcome decode pdf_bytes optimize doc w Hopen)
    as [_ Hout].
  split.
  - intros Hall. now apply scan_outcome_readable.
  - intros page img Hp Hin Hbad.
    destruct (fst (extract_key_figures decode pdf_bytes optimize w))
      as [figs|e]; simpl in Hout.
    + exfalso. apply Hbad. destruct Hout as [Hall _].
      rewrite Forall_forall in Hall. specialize (Hall page Hp).
      unfold page_readable in Hall. rewrite Forall_forall in Hall.
      now apply Hall.
    + destruct Hout as (p & i & H1 & H2 & H3). now exists e, p, i.
Qed.

Lemma unreadable_image_witness :
  exists e page' img',
    In page' (pages_to_process corrupt_doc false) /\
    In img' (get_images page') /\
    retrieval_raises corrupt_doc page' img' e /\
    fst (extract_key_figures sample_open [x04] false fresh_world) = raised e.
Proof.
  apply (proj2 (unreadable_image_aborts_the_scan sample_open [x04] false
                  corrupt_doc fresh_world eq_refl) page_corrupt broken_image).
  - simpl. left. reflexivity.
  - simpl. right. left. reflexivity.
  - intros [[r Hr] _]. vm_compute in Hr. discriminate.
Defined.

(** C3, as stated, fails.  The first page of [corrupt_doc] holds a
    captioned figure and an image whose bounding box cannot be
    retrieved; its second page holds another captioned figure.
    Skipping the unreadable image would return the two figures, but the
    call raises and returns none. *)
Lemma corrupt_image_forfeits_all_figures :
  sample_open [x04] = returned corrupt_doc /\
  figures_of_pages corrupt_doc (pages_to_process corrupt_doc false)
  = [png_bytes; png_bytes] /\
  fst (extract_key_figures sample_open [x04] false fresh_world)
  = raised ValueError /\
  fst (extract_key_figures sample_open [x04] false fresh_world)
  <> returned (figures_of_pages corrupt_doc
                 (pages_to_process corrupt_doc false)).
Proof.
  repeat split; try (vm_compute; reflexivity).
  vm_compute. discriminate.
Qed.

(** C4.  With [optimize] set and more than one page, the scan covers
    the pages after the first and nothing of the first page: every
    figure returned is an accepted image of a later page.  Without
    [optimize], or with at most one page, the scan covers every page,
    the first included. *)
Theorem optimize_skips_the_first_page
  (decode : bytes -> Exc Document) (pdf_bytes : bytes) (optimize : bool)
  (doc : Document) (w : World) :
  decode pdf_bytes = returned doc ->
  (optimize = true -> (1 < length (pages doc))%nat ->
   scan_outcome doc (tl (pages doc))
     (fst (extract_key_figures decode pdf_bytes optimize w)) /\
   forall figs b,
     fst (extract_key_figures decode pdf_bytes optimize w) = returned figs ->
     In b figs ->
     exists page img_info,
       In page (tl (pages doc)) /\ In img_info (get_images page) /\
       qualifies page img_info = true /\ payload doc img_info = Some b) /\
  (optimize = false \/ (length (pages doc) <= 1)%nat ->
   scan_outcome doc (pages doc)
     (fst (extract_key_figures decode pdf_bytes optimize w))).
Proof.
  intros Hopen.
  destruct (extract_key_figures_outcome decode pdf_bytes optimize doc w Hopen)
    as [_ Hout].
  split.
  - intros -> Hlen.
    assert (Hscan : pages_to_process doc true = tl (pages doc)).
    { unfold pages_to_process. cbn [andb].
      now apply Nat.ltb_lt in Hlen as ->. }
    rewrite Hscan in Hout. split; [exact Hout|].
    intros figs b Hres Hin. rewrite Hres in Hout. destruct Hout as [_ ->].
    now apply in_figures_of_pages.
  - intros Hcase.
    assert (Hscan : pages_to_process doc optimize = pages doc).
    { unfold pages_to_process. destruct Hcase as [-> | Hlen]; [reflexivity|].
      destruct optimize; [|reflexivity]. cbn [andb].
      destruct (pages doc) as [|p [|q rest]]; try reflexivity.
      simpl in Hlen. lia. }
    now rewrite Hscan in Hout.
Qed.

Lemma optimize_skips_witness :
  scan_outcome corrupt_doc [page_body]
    (fst (extract_key_figures sample_open [x04] true fresh_world)) /\
  scan_outcome sample_doc [page_cover; page_body; page_tail]
    (fst (extract_key_figures sample_open [x01] false fresh_world)).
Proof.
  split.
  - apply (proj1 (optimize_skips_the_first_page sample_open [x04] true
                    corrupt_doc fresh_world eq_refl)).
    + reflexivity.
    + simpl. lia.
  - apply (proj2 (optimize_skips_the_first_page sample_open [x01] false
                    sample_doc fresh_world eq_refl)).
    left. reflexivity.
Defined.

(** C9.  Nothing is deduplicated: the result holds one entry per
    accepted enumeration, in scan order, each the stored bytes of the
    image enumerated.  An image accepted on several scanned pages, or
    several times on one page, has its bytes in the result at least as
    many times. *)
Theorem no_deduplication_of_figures
  (decode : bytes -> Exc Document) (pdf_bytes : bytes) (optimize : bool)
  (doc : Document) (w : World) (figs : list bytes) :
  decode pdf_bytes = returned doc ->
  fst (extract_key_figures decode pdf_bytes optimize w) = returned figs ->
  Forall2 (fun img_info b => payload doc img_info = Some b)
    (qualifying_enumerations (pages_to_process doc optimize)) figs /\
  length figs
  = length (qualifying_enumerations (pages_to_process doc optimize)) /\
  (forall x base_image b,
      extract_image doc x = returned base_image ->
      image base_image = Some b ->
      (count_occ Z.eq_dec
         (map img_xref
            (qualifying_enumerations (pages_to_process doc optimize))) x
       <= count_occ bytes_eq_dec figs b)%nat).
Proof.
  intros Hopen Hres.
  destruct (extract_key_figures_outcome decode pdf_bytes optimize doc w Hopen)
    as [_ Hout].
  rewrite Hres in Hout. destruct Hout as [Hall ->].
  pose proof (figures_per_enumeration doc _ Hall) as Hper.
  split; [exact Hper|]. split.
  - symmetry. exact (Forall2_length Hper).
  - intros x base b Hx Hb. apply (count_per_enumeration doc x b); [|exact Hper].
    intros img <-. unfold payload. now rewrite Hx.
Qed.

Lemma no_deduplication_witness :
  Forall2 (fun img_info b => payload spread_doc img_info = Some b)
    (qualifying_enumerations (pages_to_process spread_doc false))
    [png_bytes; png_bytes; png_bytes; png_bytes] /\
  length [png_bytes; png_bytes; png_bytes; png_bytes]
  = length (qualifying_enumerations (pages_to_process spread_doc false)) /\
  (forall x base_image b,
      extract_image spread_doc x = returned base_image ->
      image base_image = Some b ->
      (count_occ Z.eq_dec
         (map img_xref
            (qualifying_enumerations (pages_to_process spread_doc false))) x
       <= count_occ bytes_eq_dec
            [png_bytes; png_bytes; png_bytes; png_bytes] b)%nat).
Proof.
  apply (no_deduplication_of_figures sample_open [x03] false spread_doc
           fresh_world).
  - reflexivity.
  - vm_compute. reflexivity.
Defined.

(** C10.  The progress fraction never divides by zero.  Every progress
    update the call shows is a fraction [done / total] with
    [1 <= done <= total], [total] being the number of pages to process,
    and every exception the call raises after decoding comes from a
    retrieval on a scanned page, none from the division. *)
Theorem progress_fraction_is_defined
  (decode : bytes -> Exc Document) (pdf_bytes : bytes) (optimize : bool)
  (doc : Document) (w : World) :
  decode pdf_bytes = returned doc ->
  (exists evs,
      ui (snd (extract_key_figures decode pdf_bytes optimize w))
      = ui w ++ evs /\
      Forall (progress_ok (Z.of_nat (length (pages_to_process doc optimize))))
        evs) /\
  (forall e,
      fst (extract_key_figures decode pdf_bytes optimize w) = raised e ->
      exists page img_info,
        In page (pages_to_process doc optimize) /\
        In img_info (get_images page) /\
        retrieval_raises doc page img_info e).
Proof.
  intros Hopen.
  destruct (extract_key_figures_outcome decode pdf_bytes optimize doc w Hopen)
    as [Hui Hout].
  split; [exact Hui|].
  intros e Hres. rewrite Hres in Hout. exact Hout.
Qed.

Lemma progress_fraction_witness :
  (exists evs,
      ui (snd (extract_key_figures sample_open [x01] true fresh_world))
      = ui fresh_world ++ evs /\
      Forall (progress_ok 2) evs) /\
  (forall e,
      fst (extract_key_figures sample_open [x01] true fresh_world) = raised e ->
      exists page img_info,
        In page (pages_to_process sample_doc true) /\
        In img_info (get_images page) /\
        retrieval_raises sample_doc page img_info e).
Proof.
  apply (progress_fraction_is_defined sample_open [x01] true sample_doc
           fresh_world).
  reflexivity.
Defined.

(* ================================================================== *)
(** * Both extractors *)

(** C7.  A document of zero pages gives the empty text and the empty
    list of figures, with either value of [optimize], and neither call
    raises; the figure extractor shows and clears its progress bar, and
    both calls close the document they opened. *)
Theorem zero_pages_yield_nothing
  (decode : bytes -> Exc Document) (pdf_bytes : bytes) (optimize : bool)
  (doc : Document) (w : World) :
  decode pdf_bytes = returned doc ->
  pages doc = [] ->
  extract_text_from_pdf decode pdf_bytes optimize w = (returned [], w) /\
  extract_key_figures decode pdf_bytes optimize w
  = (returned [],
     mkWorld (ui w ++ [ProgressCreated 0; ProgressEmptied]) (clock w)
       (open_documents w)).
Proof.
  intros Hopen Hpages. split.
  - rewrite (extract_text_unfold _ _ optimize _ w Hopen), Hpages.
    reflexivity.
  - rewrite (extract_key_figures_unfold _ _ optimize _ w Hopen).
    unfold pages_to_process. rewrite Hpages.
    destruct optimize; cbn; now rewrite <- app_assoc.
Qed.

Lemma zero_pages_witness :
  extract_text_from_pdf sample_open [x00] true fresh_world
  = (returned [], fresh_world) /\
  extract_key_figures sample_open [x00] true fresh_world
  = (returned [],
     mkWorld (ui fresh_world ++ [ProgressCreated 0; ProgressEmptied])
       (clock fresh_world) (open_documents fresh_world)).
Proof.
  apply (zero_pages_yield_nothing sample_open [x00] true empty_doc
           fresh_world); reflexivity.
Defined.

(** C8.  Both extractors are deterministic.  Two calls with the same
    bytes and the same [optimize], made in any two states [w1] and [w2]
    of the world, end alike: the same string or the same exception,
    the same figures or the same exception. *)
Theorem extractors_are_deterministic
  (decode : bytes -> Exc Document) (pdf_bytes : bytes) (optimize : bool)
  (w1 w2 : World) :
  fst (extract_text_from_pdf decode pdf_bytes optimize w1)
  = fst (extract_text_from_pdf decode pdf_bytes optimize w2) /\
  fst (extract_key_figures decode pdf_bytes optimize w1)
  = fst (extract_key_figures decode pdf_bytes optimize w2).
Proof.
  destruct (decode pdf_bytes) as [doc|e] eqn:Hopen.
  - split.
    + rewrite !(extract_text_unfold _ _ optimize _ _ Hopen).
      now destruct (text_loop optimize (pages doc) (mkText [] false)).
    + rewrite !(extract_key_figures_unfold _ _ optimize _ _ Hopen). cbv zeta.
      set (todo := pages_to_process doc optimize).
      set (u1 := mkWorld _ _ _). set (u2 := mkWorld (ui w2 ++ _) _ _).
      pose proof (page_loop_result_any_world doc (Z.of_nat (length todo)) todo
                    0 [] u1 u2) as H.
      destruct (page_loop doc (Z.of_nat (length todo)) 0 todo [] u1)
        as [[f1|e1] w1'];
      destruct (page_loop doc (Z.of_nat (length todo)) 0 todo [] u2)
        as [[f2|e2] w2']; cbn [fst] in *; congruence.
  - unfold extract_text_from_pdf, extract_key_figures, run_bind, fitz_open.
    rewrite Hopen. split; reflexivity.
Qed.

(* ================================================================== *)
(** * The examples of the specification *)

(** Three pages, the second with a line "References": the text is all
    of page 1 and the part of page 2 before the heading. *)
Example three_pages_truncated :
  fst (extract_text_from_pdf sample_open [x01] true fresh_world)
  = returned (lit "A Study of Structures" ++ [LF] ++ lit "Results" ++ [LF]).
Proof. reflexivity. Qed.

(** An image with bottom edge 300 and the block "Figure 1: Example
    structure" at 330 is accepted. *)
Example figure_at_gap_30 :
  figures_of_page sample_doc page_body = [png_bytes].
Proof. vm_compute. reflexivity. Qed.

(** The same with the block 90 units below, or with "Table 1: Data". *)
Example figure_at_gap_90 :
  figures_of_page sample_doc
    (mkPage [] [mkBlock 50 390 250 405 (lit "Figure 1: Example structure") 0 0]
       [figure_image] (fun _ => returned image_rect_300)) = [].
Proof. vm_compute. reflexivity. Qed.

Example figure_with_table_caption :
  figures_of_page sample_doc
    (mkPage [] [mkBlock 50 330 250 345 (lit "Table 1: Data") 0 0]
       [figure_image] (fun _ => returned image_rect_300)) = [].
Proof. vm_compute. reflexivity. Qed.

(** A caption above the image does not count. *)
Example figure_with_caption_above :
  figures_of_page sample_doc
    (mkPage [] [mkBlock 50 80 250 95 (lit "Figure 1: Example structure") 0 0]
       [figure_image] (fun _ => returned image_rect_300)) = [].
Proof. vm_compute. reflexivity. Qed.

(** The first page is skipped under [optimize], figures and all. *)
Example cover_figure_skipped :
  fst (extract_key_figures sample_open [x01] true fresh_world)
  = returned [png_bytes] /\
  fst (extract_key_figures sample_open [x01] false fresh_world)
  = returned [jpeg_bytes; png_bytes].
Proof. split; vm_compute; reflexivity. Qed.

(* ================================================================== *)
(** * More about the text extractor *)

Lemma keyword_loop_outcome (keywords : list str) (text : str)
  (st : text_state) :
  (forall kw, In kw keywords -> kw <> []) ->
  keyword_loop keywords text st = returned st \/
  exists head tail,
    text = head ++ tail /\
    keyword_loop keywords text st
    = returned (mkText (full_text st ++ head) true).
Proof.
  induction keywords as [|kw kws IH]; intros Hne; simpl; [now left|].
  destruct (re_search (heading_pattern kw) (strip text) re_MULTILINE).
  - right. assert (Hkw : kw <> []) by (apply Hne; simpl; auto).
    unfold split. destruct kw as [|c kw]; [congruence|].
    destruct (split_from_head (c :: kw) Hkw text [])
      as (head & rest & Heq & Hcase).
    rewrite Heq. simpl.
    destruct Hcase as [[[b Hb] _] | [_ ->]].
    + exists head, ((c :: kw) ++ b). split; [exact Hb | reflexivity].
    + exists text, []. now rewrite app_nil_r.
  - apply IH. intros kw' Hin. apply Hne. simpl; auto.
Qed.

Lemma text_loop_cuts_a_suffix (doc_pages : list Page) :
  forall st,
    stop_extraction st = false ->
    exists kept dropped stop,
      all_text doc_pages = kept ++ dropped /\
      text_loop true doc_pages st
      = returned (mkText (full_text st ++ kept) stop).
Proof.
  induction doc_pages as [|p ps IH]; intros st Hst.
  - exists [], [], false. split; [reflexivity|]. simpl. rewrite app_nil_r.
    destruct st; simpl in *. now subst.
  - cbn [text_loop]. unfold text_page. rewrite Hst. cbn [andb negb].
    destruct (keyword_loop_outcome reference_keywords (get_text p) st
                reference_keywords_nonempty)
      as [Hsame | (head & tail & Htext & Hcut)].
    + rewrite Hsame. cbn [exc_bind]. rewrite Hst. cbn [negb exc_bind].
      destruct (IH (mkText (full_text st ++ get_text p) false) eq_refl)
        as (kept & dropped & stop & Hall & Hrun).
      exists (get_text p ++ kept), dropped, stop. split.
      * unfold all_text in *. cbn [map concat]. now rewrite Hall, app_assoc.
      * rewrite Hrun. cbn [full_text]. now rewrite app_assoc.
    + rewrite Hcut. cbn [exc_bind stop_extraction].
      rewrite text_loop_stopped by reflexivity.
      exists head, (tail ++ all_text ps), true. split; [|reflexivity].
      unfold all_text. cbn [map concat]. now rewrite Htext, app_assoc.
Qed.

Lemma extract_text_returns (decode : bytes -> Exc Document)
  (pdf_bytes : bytes) (optimize : bool) (doc : Document) :
  decode pdf_bytes = returned doc ->
  exists text,
    forall w,
      extract_text_from_pdf decode pdf_bytes optimize w = (returned text, w).
Proof.
  intros Hopen. destruct optimize.
  - destruct (text_loop_cuts_a_suffix (pages doc) (mkText [] false) eq_refl)
      as (kept & dropped & stop & _ & Hrun).
    exists kept. intros w.
    now rewrite (extract_text_unfold _ _ true _ w Hopen), Hrun.
  - exists (all_text (pages doc)). intros w.
    rewrite (extract_text_unfold _ _ false _ w Hopen).
    now rewrite text_loop_whole; [|now left|reflexivity].
Qed.

(** Once the bytes decode, the text extractor cannot fail: neither the
    split nor the indexing of its result raises, the call returns a
    string and leaves the world as it found it, the document closed
    again. *)
Theorem text_extraction_never_raises
  (decode : bytes -> Exc Document) (pdf_bytes : bytes) (optimize : bool)
  (doc : Document) (w : World) :
  decode pdf_bytes = returned doc ->
  exists text,
    extract_text_from_pdf decode pdf_bytes optimize w = (returned text, w).
Proof.
  intros Hopen.
  destruct (extract_text_returns decode pdf_bytes optimize doc Hopen)
    as [text H].
  now exists text.
Qed.

Lemma text_extraction_never_raises_witness :
  exists text,
    extract_text_from_pdf sample_open [x01] true fresh_world
    = (returned text, fresh_world).
Proof.
  apply (text_extraction_never_raises sample_open [x01] true sample_doc).
  reflexivity.
Defined.

(** Optimizing only ever cuts the end off: for every document, the text
    extracted with [optimize] is a prefix of the text extracted
    without. *)
Theorem optimized_text_is_a_prefix
  (decode : bytes -> Exc Document) (pdf_bytes : bytes) (doc : Document)
  (w : World) :
  decode pdf_bytes = returned doc ->
  exists kept dropped,
    extract_text_from_pdf decode pdf_bytes true w = (returned kept, w) /\
    extract_text_from_pdf decode pdf_bytes false w
    = (returned (kept ++ dropped), w).
Proof.
  intros Hopen. rewrite !(extract_text_unfold _ _ _ _ w Hopen).
  destruct (text_loop_cuts_a_suffix (pages doc) (mkText [] false) eq_refl)
    as (kept & dropped & stop & Hall & Hrun).
  exists kept, dropped. rewrite Hrun.
  rewrite text_loop_whole; [|now left|reflexivity].
  cbn [full_text app]. now rewrite Hall.
Qed.

Lemma optimized_text_is_a_prefix_witness :
  exists kept dropped,
    extract_text_from_pdf sample_open [x01] true fresh_world
    = (returned kept, fresh_world) /\
    extract_text_from_pdf sample_open [x01] false fresh_world
    = (returned (kept ++ dropped), fresh_world).
Proof.
  apply (optimized_text_is_a_prefix sample_open [x01] sample_doc).
  reflexivity.
Defined.

(* ================================================================== *)
(** * More about the figure extractor *)

(** The trace of the page loop: [k] pages were completed, each with its
    progress update and its pause; all of them when the loop returns,
    fewer when a retrieval stops it.  The loop itself opens and closes
    nothing. *)
Lemma page_loop_trace (doc : Document) (total : Z) :
  forall todo i key_figures w,
    (0 <= i)%Z -> (i + Z.of_nat (length todo) = total)%Z ->
    exists k,
      ui (snd (page_loop doc total i todo key_figures w))
      = ui w ++ progress_updates total i k /\
      open_documents (snd (page_loop doc total i todo key_figures w))
      = open_documents w /\
      clock (snd (page_loop doc total i todo key_figures w))
      == clock w + inject_Z (Z.of_nat k) * (1 # 100) /\
      match fst (page_loop doc total i todo key_figures w) with
      | returned _ => k = length todo
      | raised _ => (k < length todo)%nat
      end.
Proof.
  induction todo as [|page rest IH]; intros i acc w Hi Htot.
  - exists O. cbn. rewrite app_nil_r. repeat split. ring.
  - destruct (image_loop doc page (get_text_blocks page) (get_images page) acc)
      as [figs1|e] eqn:Hrun.
    + assert (Hrange : (1 <= i + 1 <= total)%Z)
        by (cbn [length] in Htot; lia).
      rewrite (page_loop_step _ _ _ _ rest _ _ w Hrun Hrange).
      set (w1 := mkWorld _ _ _).
      destruct (IH (i + 1)%Z figs1 w1) as (k & Hui & Hopen & Hclock & Hres);
        [lia | cbn [length] in Htot; lia |].
      exists (S k). rewrite Hui, Hopen, Hclock. subst w1. cbn [ui clock
        open_documents progress_updates]. repeat split.
      * now rewrite <- app_assoc.
      * rewrite Nat2Z.inj_succ. unfold Z.succ. rewrite inject_Z_plus. ring.
      * destruct (fst (page_loop doc total (i + 1) rest figs1 _));
          cbn [length]; lia.
    + rewrite (page_loop_step_raised _ _ _ _ _ _ _ _ Hrun).
      exists O. cbn. rewrite app_nil_r. repeat split; [ring | lia].
Qed.

(** A scan that returns has shown one progress update per scanned page,
    [1/n], [2/n], ... up to [n/n], then cleared the bar, paused a
    hundredth of a second per page, and closed the document it
    opened. *)
Theorem completed_scan_reports_every_page
  (decode : bytes -> Exc Document) (pdf_bytes : bytes) (optimize : bool)
  (doc : Document) (w : World) (figs : list bytes) :
  decode pdf_bytes = returned doc ->
  fst (extract_key_figures decode pdf_bytes optimize w) = returned figs ->
  let n := length (pages_to_process doc optimize) in
  ui (snd (extract_key_figures decode pdf_bytes optimize w))
  = ui w ++ ProgressCreated 0
         :: progress_updates (Z.of_nat n) 0 n ++ [ProgressEmptied] /\
  open_documents (snd (extract_key_figures decode pdf_bytes optimize w))
  = open_documents w /\
  clock (snd (extract_key_figures decode pdf_bytes optimize w))
  == clock w + inject_Z (Z.of_nat n) * (1 # 100).
Proof.
  intros Hopen Hres n. revert Hres.
  rewrite (extract_key_figures_unfold _ _ optimize _ w Hopen). cbv zeta.
  fold n. set (w0 := mkWorld _ _ _).
  destruct (page_loop_trace doc (Z.of_nat n) (pages_to_process doc optimize)
              0 [] w0) as (k & Hui & Hdocs & Hclock & Hk); [lia | lia |].
  destruct (page_loop doc (Z.of_nat n) 0 (pages_to_process doc optimize) [] w0)
    as [[f|e] w'] eqn:Hrun; cbn [fst snd] in *; [|discriminate].
  intros _. subst k. cbn [ui open_documents clock].
  rewrite Hui, Hdocs, Hclock. subst w0. cbn [ui open_documents clock].
  repeat split. now rewrite <- !app_assoc.
Qed.

Lemma completed_scan_witness :
  ui (snd (extract_key_figures sample_open [x01] true fresh_world))
  = ui fresh_world ++ ProgressCreated 0
      :: progress_updates 2 0 2 ++ [ProgressEmptied] /\
  open_documents (snd (extract_key_figures sample_open [x01] true fresh_world))
  = open_documents fresh_world /\
  clock (snd (extract_key_figures sample_open [x01] true fresh_world))
  == clock fresh_world + inject_Z 2 * (1 # 100).
Proof.
  apply (completed_scan_reports_every_page sample_open [x01] true sample_doc
           fresh_world [png_bytes]).
  - reflexivity.
  - vm_compute. reflexivity.
Defined.

(** A scan that a retrieval stops leaves its traces behind: the
    progress bar stays on the side bar at the [k] pages completed,
    fewer than all, and is never cleared, and the document it opened
    is never closed. *)
Theorem aborted_scan_leaves_bar_and_document
  (decode : bytes -> Exc Document) (pdf_bytes : bytes) (optimize : bool)
  (doc : Document) (w : World) (e : exn) :
  decode pdf_bytes = returned doc ->
  fst (extract_key_figures decode pdf_bytes optimize w) = raised e ->
  let n := length (pages_to_process doc optimize) in
  exists k,
    (k < n)%nat /\
    ui (snd (extract_key_figures decode pdf_bytes optimize w))
    = ui w ++ ProgressCreated 0 :: progress_updates (Z.of_nat n) 0 k /\
    open_documents (snd (extract_key_figures decode pdf_bytes optimize w))
    = S (open_documents w).
Proof.
  intros Hopen Hres n. revert Hres.
  rewrite (extract_key_figures_unfold _ _ optimize _ w Hopen). cbv zeta.
  fold n. set (w0 := mkWorld _ _ _).
  destruct (page_loop_trace doc (Z.of_nat n) (pages_to_process doc optimize)
              0 [] w0) as (k & Hui & Hdocs & _ & Hk); [lia | lia |].
  destruct (page_loop doc (Z.of_nat n) 0 (pages_to_process doc optimize) [] w0)
    as [[f|e'] w'] eqn:Hrun; cbn [fst snd] in *; [discriminate|].
  intros _. exists k. rewrite Hui, Hdocs. subst w0.
  cbn [ui open_documents]. repeat split; [exact Hk|].
  now rewrite <- !app_assoc.
Qed.

Lemma aborted_scan_witness :
  exists k,
    (k < 2)%nat /\
    ui (snd (extract_key_figures sample_open [x04] false fresh_world))
    = ui fresh_world ++ ProgressCreated 0 :: progress_updates 2 0 k /\
    open_documents
      (snd (extract_key_figures sample_open [x04] false fresh_world))
    = S (open_documents fresh_world).
Proof.
  apply (aborted_scan_leaves_bar_and_document sample_open [x04] false
           corrupt_doc fresh_world ValueError).
  - reflexivity.
  - vm_compute. reflexivity.
Defined.

(** Skipping the first page drops that page's figures and nothing
    else: when the scan of all pages of a document of two pages or
    more returns, the optimized scan returns too, and the full result
    is the figures of the first page followed by the optimized
    result. *)
Theorem optimized_figures_are_a_suffix
  (decode : bytes -> Exc Document) (pdf_bytes : bytes) (doc : Document)
  (w w' : World) (figs : list bytes) (first second : Page)
  (others : list Page) :
  decode pdf_bytes = returned doc ->
  pages doc = first :: second :: others ->
  fst (extract_key_figures decode pdf_bytes false w) = returned figs ->
  exists later,
    fst (extract_key_figures decode pdf_bytes true w') = returned later /\
    figs = figures_of_page doc first ++ later.
Proof.
  intros Hopen Hpages Hres.
  destruct (extract_key_figures_outcome decode pdf_bytes false doc w Hopen)
    as [_ Hall].
  destruct (extract_key_figures_outcome decode pdf_bytes true doc w' Hopen)
    as [_ Hopt].
  rewrite Hres in Hall. unfold pages_to_process in Hall, Hopt.
  rewrite Hpages in Hall, Hopt. cbn in Hall, Hopt.
  destruct Hall as [Hread ->].
  exists (figures_of_pages doc (second :: others)). split; [|reflexivity].
  apply scan_outcome_readable; [exact Hopt|]. now inversion Hread.
Qed.

Lemma optimized_figures_witness :
  exists later,
    fst (extract_key_figures sample_open [x01] true fresh_world)
    = returned later /\
    [jpeg_bytes; png_bytes] = figures_of_page sample_doc page_cover ++ later.
Proof.
  apply (optimized_figures_are_a_suffix sample_open [x01] sample_doc
           fresh_world fresh_world [jpeg_bytes; png_bytes]
           page_cover page_body [page_tail]).
  - reflexivity.
  - reflexivity.
  - vm_compute. reflexivity.
Defined.

(* ================================================================== *)
(** * More about the caption pattern *)









(* ================================================================== *)
(** * Runs of the script: how properties compose *)

Lemma sends_nothing_ret {A : Type} (a : A) : sends_nothing (app_ret a).
Proof. intros s. reflexivity. Qed.

Lemma sends_nothing_raise {A : Type} (e : exn) :
  sends_nothing (@app_raise A e).
Proof. intros s. reflexivity. Qed.

Lemma sends_nothing_show (p : place) (e : element) : sends_nothing (show p e).
Proof. intros s. reflexivity. Qed.

Lemma sends_nothing_of_exc {A : Type} (c : Exc A) : sends_nothing (of_exc c).
Proof. intros s. reflexivity. Qed.

Lemma sends_nothing_in_world {A : Type} (c : Run A) :
  sends_nothing (in_world c).
Proof. intros s. unfold in_world. now destruct (c (world s)). Qed.

Lemma sends_nothing_bind {A B : Type} (c : App A) (k : A -> App B) :
  sends_nothing c -> (forall a, sends_nothing (k a)) ->
  sends_nothing (app_bind c k).
Proof.
  intros Hc Hk s. unfold app_bind. specialize (Hc s).
  destruct (c s) as [[a|e] s']; cbn [snd] in *; [|exact Hc].
  now rewrite Hk.
Qed.

Lemma sends_nothing_try {A : Type} (c : App A) (handler : exn -> App A) :
  sends_nothing c -> (forall e, sends_nothing (handler e)) ->
  sends_nothing (try_except c handler).
Proof.
  intros Hc Hh s. unfold try_except. specialize (Hc s).
  destruct (c s) as [[a|e] s']; cbn [snd] in *; [exact Hc|].
  now rewrite Hh.
Qed.

Lemma raises_within_ret {A : Type} (P : exn -> Prop) (a : A) :
  raises_within P (app_ret a).
Proof. intros s e H. discriminate. Qed.

Lemma raises_within_show (P : exn -> Prop) (p : place) (el : element) :
  raises_within P (show p el).
Proof. intros s e H. discriminate. Qed.

Lemma raises_within_bind {A B : Type} (P : exn -> Prop) (c : App A)
  (k : A -> App B) :
  raises_within P c -> (forall a, raises_within P (k a)) ->
  raises_within P (app_bind c k).
Proof.
  intros Hc Hk s e. unfold app_bind. specialize (Hc s).
  destruct (c s) as [[a|e'] s']; cbn [fst] in *.
  - apply Hk.
  - intros H. apply Hc. now injection H as ->.
Qed.

Create HintDb app discriminated.
#[export] Hint Resolve sends_nothing_ret sends_nothing_raise
  sends_nothing_show sends_nothing_of_exc sends_nothing_in_world
  raises_within_ret raises_within_show : app.

(** Break a sequence of steps into its steps. *)
Ltac app_steps :=
  repeat first
    [ apply sends_nothing_bind; [|intros ?]
    | apply raises_within_bind; [|intros ?]
    | solve [auto with app] ].

(* ================================================================== *)
(** * The two AI functions *)

Lemma generate_content_sends (svc : Services) (p : prompt) (s : AppState) :
  generate_content svc p s
  = (generate_content_text svc (genai_calls s) p,
     mkApp (world s) (screen s) (genai_calls s ++ [p])).
Proof. reflexivity. Qed.

Lemma summarize_never_raises (svc : Services) (api_key : option str)
  (text : str) (P : exn -> Prop) :
  raises_within P (summarize_paper_with_ai svc api_key text).
Proof.
  intros s e. unfold summarize_paper_with_ai.
  destruct (truthy api_key); cbn [negb]; [|discriminate].
  unfold try_except. rewrite generate_content_sends.
  destruct (generate_content_text svc (genai_calls s) _); discriminate.
Qed.

Lemma summarize_without_key (svc : Services) (api_key : option str)
  (text : str) :
  truthy api_key = false ->
  sends_nothing (summarize_paper_with_ai svc api_key text).
Proof.
  intros Hkey s. unfold summarize_paper_with_ai. now rewrite Hkey.
Qed.

Lemma analyze_without_key (svc : Services) (api_key : option str)
  (image_bytes : bytes) (context : str) :
  truthy api_key = false ->
  sends_nothing (analyze_image_with_ai svc api_key image_bytes context).
Proof.
  intros Hkey s. unfold analyze_image_with_ai. now rewrite Hkey.
Qed.

(** [analyze_image_with_ai] opens the image before its [try]: what PIL
    raises on the bytes is the one failure the function lets through.
    It raises exactly when a key is set and the bytes cannot be opened,
    and then no prompt has been sent; a failure of the model comes back
    as text. *)
Theorem analysis_raises_exactly_on_unopenable_bytes
  (svc : Services) (api_key : option str) (image_bytes : bytes)
  (context : str) (s : AppState) (e : exn) :
  (fst (analyze_image_with_ai svc api_key image_bytes context s) = raised e
   <-> truthy api_key = true /\ Image_open svc image_bytes = raised e) /\
  (fst (analyze_image_with_ai svc api_key image_bytes context s) = raised e ->
   snd (analyze_image_with_ai svc api_key image_bytes context s) = s).
Proof.
  unfold analyze_image_with_ai, app_bind, of_exc, try_except.
  destruct (truthy api_key); cbn [negb].
  - destruct (Image_open svc image_bytes) as [img|e'].
    + rewrite generate_content_sends.
      destruct (generate_content_text svc (genai_calls s) _); cbn [fst];
        (split; [split|]); try discriminate; intros [_ H]; discriminate.
    + cbn [fst snd]. split; [split|reflexivity].
      * intros H. injection H as ->. now split.
      * intros [_ H]. injection H as ->. reflexivity.
  - cbn [fst]. split; [split|]; try discriminate. intros [H _]. discriminate.
Qed.

Lemma analysis_raises_witness :
  snd (analyze_image_with_ai sample_services (Some (lit "secret-key"))
         [x00] long_text fresh_app) = fresh_app.
Proof.
  apply (proj2 (analysis_raises_exactly_on_unopenable_bytes sample_services
                  (Some (lit "secret-key")) [x00] long_text fresh_app
                  ValueError)).
  reflexivity.
Defined.


(* ================================================================== *)
(** * What a run can raise *)







(** What the side bar block hands on: nothing without a file, the
    file's bytes and what the widgets report with one. *)
Lemma sidebar_controls (api_key : option str) (inp : Inputs) (s : AppState) :
  exists s',
    sidebar api_key inp s
    = (returned
         match file_uploader_value inp with
         | Some pdf_bytes =>
             Upload pdf_bytes (checkbox_summarize inp) (checkbox_figures inp)
               (toggle_optimization inp) (button_start inp)
         | None => NoUpload
         end, s') /\
    genai_calls s' = genai_calls s /\ world s' = world s.
Proof.
  unfold sidebar, app_bind, show, app_ret.
  destruct (file_uploader_value inp); cbn; eexists; repeat split.
Qed.






(* ================================================================== *)
(** * When the model is called *)

Lemma sends_nothing_tabs (p : place) (labels : list str) :
  sends_nothing (st_tabs p labels).
Proof. destruct labels; unfold st_tabs; app_steps. Qed.

#[export] Hint Resolve sends_nothing_tabs : app.

Lemma figure_loop_without_key (be : Backend) (api_key : option str)
  (inp : Inputs) (tab : place) (text : str) :
  truthy api_key = false ->
  forall images i,
    sends_nothing (figure_loop be api_key inp tab text i images).
Proof.
  intros Hkey. induction images as [|b rest IH]; intros i; cbn [figure_loop].
  - auto with app.
  - rewrite Hkey. app_steps.
Qed.

Lemma main_without_key (svc : Services) (api_key : option str)
  (inp : Inputs) (controls : Controls) :
  truthy api_key = false ->
  sends_nothing (main (plain_backend svc api_key) api_key inp controls).
Proof.
  intros Hkey. unfold main.
  destruct controls as [|pdf su fi op st]; [auto with app|].
  destruct st; [|auto with app].
  rewrite Hkey. cbn [negb]. rewrite andb_true_r.
  destruct su; cbn [negb andb]; [auto with app|].
  destruct fi; cbn [negb andb]; [|auto with app].
  cbn [call_extract_text call_extract_figures call_summarize plain_backend].
  app_steps.
  match goal with |- sends_nothing (if ?c then _ else _) => destruct c end;
    [auto with app|].
  unfold result_tabs. cbn [app].
  app_steps.
  match goal with |- sends_nothing (match ?l with _ => _ end) =>
    destruct l end; [auto with app|].
  now apply figure_loop_without_key.
Qed.

Lemma app_bind_snd {A B : Type} (c : App A) (k : A -> App B) (s : AppState) :
  snd (app_bind c k s)
  = match c s with
    | (returned a, s') => snd (k a s')
    | (raised _, s') => s'
    end.
Proof. unfold app_bind. now destruct (c s) as [[a|e] s']. Qed.

Lemma show_bind_snd {B : Type} (p : place) (el : element)
  (k : unit -> App B) (s : AppState) :
  snd (app_bind (show p el) k s)
  = snd (k tt (mkApp (world s) (screen s ++ [(p, el)]) (genai_calls s))).
Proof. reflexivity. Qed.

(** The key lines 41-57 keep, when it counts as set, is one that
    [genai.configure] accepted: the secret, or without a secret what
    the user typed.  The lines send nothing to the model. *)
Lemma configure_outcome (svc : Services) (inp : Inputs) (s : AppState) :
  genai_calls (snd (configure_api_key svc inp s)) = genai_calls s /\
  forall api_key,
    fst (configure_api_key svc inp s) = returned api_key ->
    truthy api_key = true ->
    exists key,
      api_key = Some key /\ key <> [] /\
      genai_configure svc key = returned tt /\
      (secrets_GEMINI_API_KEY inp = SecretValue key \/
       ((secrets_GEMINI_API_KEY inp = SecretKeyError \/
         secrets_GEMINI_API_KEY inp = SecretFileNotFoundError) /\
        text_input_value inp = key)).
Proof.
  unfold configure_api_key, app_bind, try_except, of_exc, show, app_ret,
    app_raise.
  destruct (secrets_GEMINI_API_KEY inp) as [v| | |e'];
    cbn [fst snd world screen genai_calls].
  4:{ split; [reflexivity | discriminate]. }
  all: match goal with |- context [truthy (Some ?k)] =>
         destruct (truthy (Some k)) eqn:Hk;
         [destruct (genai_configure svc k) as [[]|e'] eqn:Hconf|];
         cbn [fst snd genai_calls]; (split; [reflexivity|]);
         intros api_key Hret Htruthy; injection Hret as <-;
         try discriminate; try congruence;
         exists k; repeat split; auto;
         intros Hempty; rewrite Hempty in Hk; discriminate
       end.
Qed.

(** No prompt leaves a run without a key in force: when a run sends
    anything to the model, [genai.configure] has accepted a key that is
    not empty -- the stored secret or, without one, the key typed in
    the side bar. *)
Theorem model_is_called_only_with_an_accepted_key
  (svc : Services) (inp : Inputs) (s : AppState) :
  genai_calls (snd (script svc inp s)) <> genai_calls s ->
  exists key,
    key <> [] /\
    genai_configure svc key = returned tt /\
    (secrets_GEMINI_API_KEY inp = SecretValue key \/
     ((secrets_GEMINI_API_KEY inp = SecretKeyError \/
       secrets_GEMINI_API_KEY inp = SecretFileNotFoundError) /\
      text_input_value inp = key)).
Proof.
  intros Hsent. unfold script in Hsent.
  rewrite !show_bind_snd in Hsent.
  set (s2 := mkApp _ _ _) in Hsent. rewrite app_bind_snd in Hsent.
  destruct (configure_outcome svc inp s2) as [Hquiet Hkey].
  destruct (configure_api_key svc inp s2) as [[api_key|e] s3] eqn:Hconf;
    cbn [fst snd] in *.
  2:{ exfalso. apply Hsent. rewrite Hquiet. reflexivity. }
  destruct (truthy api_key) eqn:Htruthy.
  - destruct (Hkey api_key eq_refl Htruthy) as (key & _ & Hne & Hok & Hfrom).
    now exists key.
  - exfalso. apply Hsent.
    destruct (sidebar_controls api_key inp s3) as (s4 & Hside & Hcalls & _).
    rewrite app_bind_snd, Hside. rewrite !show_bind_snd.
    rewrite (main_without_key svc api_key inp _ Htruthy). cbn [genai_calls].
    rewrite Hcalls, Hquiet. reflexivity.
Qed.

Lemma model_call_witness :
  exists key,
    key <> [] /\
    genai_configure sample_services key = returned tt /\
    (secrets_GEMINI_API_KEY (sample_inputs (Some [x05]) true false)
     = SecretValue key \/
     ((secrets_GEMINI_API_KEY (sample_inputs (Some [x05]) true false)
       = SecretKeyError \/
       secrets_GEMINI_API_KEY (sample_inputs (Some [x05]) true false)
       = SecretFileNotFoundError) /\
      text_input_value (sample_inputs (Some [x05]) true false) = key)).
Proof.
  apply (model_is_called_only_with_an_accepted_key sample_services
           (sample_inputs (Some [x05]) true false) fresh_app).
  vm_compute. discriminate.
Defined.

(* ================================================================== *)
(** * The buttons under the figures *)

Lemma app_bind_ext {A B : Type} (c : App A) (k k' : A -> App B)
  (s : AppState) :
  (forall a s', k a s' = k' a s') -> app_bind c k s = app_bind c k' s.
Proof.
  intros H. unfold app_bind. destruct (c s) as [[a|e] s']; [apply H|reflexivity].
Qed.

Lemma figure_loop_unclicked (be be' : Backend) (api_key : option str)
  (inp : Inputs) (tab : place) (text : str) :
  (forall i, button_figure inp i = false) ->
  forall images i s,
    figure_loop be api_key inp tab text i images s
    = figure_loop be' api_key inp tab text i images s.
Proof.
  intros Hno. induction images as [|b rest IH]; intros i s; [reflexivity|].
  cbn [figure_loop]. rewrite Hno.
  apply app_bind_ext. intros _ s1.
  apply app_bind_ext. intros _ s2.
  apply app_bind_ext. intros _ s3. apply IH.
Qed.

Lemma result_tabs_unclicked (be be' : Backend) (api_key : option str)
  (inp : Inputs) (su fi : bool) (summary text : str) (images : list bytes)
  (s : AppState) :
  (forall i, button_figure inp i = false) ->
  result_tabs be api_key inp su fi summary text images s
  = result_tabs be' api_key inp su fi summary text images s.
Proof.
  intros Hno. unfold result_tabs.
  destruct su, fi; cbn [app]; try reflexivity;
    apply app_bind_ext; intros tabs s1;
    apply app_bind_ext; intros idx s2;
    apply app_bind_ext; intros tab s3;
    apply app_bind_ext; intros _ s4;
    apply app_bind_ext; intros tab' s5;
    (destruct images; [reflexivity|]);
    now apply figure_loop_unclicked.
Qed.

(** The buttons under the figures are drawn only in a run that the
    start button set off.  In a run where the start button and a figure
    button do not both report a click, [analyze_image_with_ai] is never
    called: the run is the same with any other function in its
    place. *)
Theorem figure_buttons_need_the_start_button
  (be : Backend) (analyze : bytes -> str -> App str)
  (api_key : option str) (inp : Inputs) (pdf_bytes : bytes)
  (summarize_paper_option extract_images_option apply_optimization : bool)
  (s : AppState) :
  (button_start inp = true -> forall i, button_figure inp i = false) ->
  main be api_key inp
    (Upload pdf_bytes summarize_paper_option extract_images_option
       apply_optimization (button_start inp)) s
  = main (with_analyze be analyze) api_key inp
      (Upload pdf_bytes summarize_paper_option extract_images_option
         apply_optimization (button_start inp)) s.
Proof.
  intros Hexcl. unfold main.
  destruct (button_start inp); [|reflexivity]. specialize (Hexcl eq_refl).
  destruct (negb summarize_paper_option && negb extract_images_option);
    [reflexivity|].
  destruct (summarize_paper_option && negb (truthy api_key)); [reflexivity|].
  cbn [with_analyze call_extract_text call_extract_figures call_summarize].
  apply app_bind_ext. intros _ s1.
  apply app_bind_ext. intros text s2.
  match goal with |- (if ?c then _ else _) _ = _ => destruct c end;
    [reflexivity|].
  apply app_bind_ext. intros _ s3.
  apply app_bind_ext. intros _ s4.
  apply app_bind_ext. intros summary s5.
  apply app_bind_ext. intros images s6.
  apply app_bind_ext. intros _ s7.
  unfold app_bind. rewrite (result_tabs_unclicked be (with_analyze be analyze))
    by exact Hexcl.
  reflexivity.
Qed.

Lemma figure_buttons_witness :
  main (plain_backend sample_services (Some (lit "secret-key")))
    (Some (lit "secret-key")) (sample_inputs (Some [x05]) true true)
    (Upload [x05] true true true
       (button_start (sample_inputs (Some [x05]) true true))) fresh_app
  = main (with_analyze
            (plain_backend sample_services (Some (lit "secret-key")))
            (fun _ _ => app_raise RuntimeError))
      (Some (lit "secret-key")) (sample_inputs (Some [x05]) true true)
      (Upload [x05] true true true
         (button_start (sample_inputs (Some [x05]) true true))) fresh_app.
Proof.
  apply (figure_buttons_need_the_start_button
           (plain_backend sample_services (Some (lit "secret-key")))
           (fun _ _ => app_raise RuntimeError)
           (Some (lit "secret-key")) (sample_inputs (Some [x05]) true true)).
  intros _ i. reflexivity.
Defined.

(* ================================================================== *)
(** * Runs that go wrong half way *)

Lemma plain_text_call (svc : Services) (api_key : option str)
  (pdf_bytes : bytes) (optimize : bool) (text : str) (s : AppState) :
  fst (extract_text_from_pdf (fitz_decode svc) pdf_bytes optimize (world s))
  = returned text ->
  call_extract_text (plain_backend svc api_key) pdf_bytes optimize s
  = (returned text, s).
Proof.
  intros Htext. cbn [call_extract_text plain_backend]. unfold in_world.
  destruct (fitz_decode svc pdf_bytes) as [doc|e] eqn:Hopen.
  - destruct (extract_text_returns _ pdf_bytes optimize doc Hopen) as [t Ht].
    rewrite Ht in *. cbn [fst] in Htext. injection Htext as ->.
    now destruct s.
  - revert Htext. unfold extract_text_from_pdf, run_bind, fitz_open.
    rewrite Hopen. discriminate.
Qed.






(* ================================================================== *)
(** * References at the top of the first page *)

Lemma lstrip_split (s : str) : exists l, s = l ++ lstrip s /\ all_space l.
Proof.
  induction s as [|c s (l & IH & Hl)]; simpl.
  - exists []. split; [reflexivity | constructor].
  - destruct (isspace c) eqn:Hc.
    + exists (c :: l). split; [simpl; now rewrite <- IH | now constructor].
    + exists []. split; [reflexivity | constructor].
Qed.

Lemma lstrip_all_space (l : str) : all_space l -> lstrip l = [].
Proof.
  induction 1 as [|c l Hc _ IH]; simpl; [reflexivity|]. now rewrite Hc.
Qed.

Lemma strip_all_space (l : str) : all_space l -> strip l = [].
Proof.
  intros H. unfold strip, rstrip. now rewrite (lstrip_all_space l H).
Qed.

Lemma shorter_prefix {A : Type} (a b x y : list A) :
  a ++ x = b ++ y -> (length a <= length b)%nat -> exists b', b = a ++ b'.
Proof.
  revert b. induction a as [|c a IH]; intros b Heq Hlen.
  - now exists b.
  - destruct b as [|d b]; [simpl in Hlen; lia|].
    simpl in Heq. injection Heq as -> Heq.
    destruct (IH b Heq) as [b' ->]; [simpl in Hlen; lia|]. now exists b'.
Qed.

Lemma heading_on_top_leaves_blank (decode : bytes -> Exc Document)
  (pdf_bytes : bytes) (doc : Document) (page : Page) (after : list Page)
  (ks1 : list str) (kw : str) (ks2 : list str) :
  decode pdf_bytes = returned doc ->
  pages doc = page :: after ->
  reference_keywords = ks1 ++ kw :: ks2 ->
  (forall k, In k ks1 -> ~ heading_on k page) ->
  (exists b, strip (get_text page) = kw ++ b) ->
  exists blank,
    all_space blank /\
    forall w,
      extract_text_from_pdf decode pdf_bytes true w = (returned blank, w).
Proof.
  intros Hopen Hpages Hks Hks1 [b Hb].
  assert (Hhit : heading_on kw page).
  { exists [], b. split; [exact Hb | now left]. }
  destruct (text_loop_truncates [] page after ks1 kw ks2)
    as (head & [[b0 Hhead] Hmin] & Hrun); try assumption.
  { intros q k []. }
  exists head. split.
  - destruct (lstrip_split (get_text page)) as (l & Hl & Hspace).
    destruct (lstrip_suffix (rev (lstrip (get_text page)))) as (r & Hr).
    assert (Htext : get_text page = l ++ kw ++ (b ++ rev r)).
    { rewrite Hl at 1. f_equal. rewrite app_assoc, <- Hb.
      unfold strip, rstrip.
      rewrite <- rev_app_distr, <- Hr. now rewrite rev_involutive. }
    specialize (Hmin l _ Htext).
    destruct (shorter_prefix head l (kw ++ b0) (kw ++ b ++ rev r))
      as [l' ->]; [congruence | exact Hmin |].
    unfold all_space in *. now apply Forall_app in Hspace.
  - intros w. rewrite (extract_text_unfold _ _ true _ w Hopen), Hpages.
    cbn [app] in Hrun. now rewrite Hrun.
Qed.

(** References at the top cost the whole paper.  With the fast
    analysis on, when the first page opens -- white space aside -- with
    a reference keyword and no keyword before it in the list heads a
    line of that page, the extracted text is white space only: the run
    stops at the message that no text could be extracted, and nothing
    is summarised or scanned. *)
Theorem references_on_top_stop_the_run
  (svc : Services) (api_key : option str) (inp : Inputs)
  (pdf_bytes : bytes) (doc : Document) (page : Page) (after : list Page)
  (ks1 : list str) (kw : str) (ks2 : list str)
  (summarize_paper_option extract_images_option : bool) (s : AppState) :
  fitz_decode svc pdf_bytes = returned doc ->
  pages doc = page :: after ->
  reference_keywords = ks1 ++ kw :: ks2 ->
  (forall k, In k ks1 -> ~ heading_on k page) ->
  (exists b, strip (get_text page) = kw ++ b) ->
  negb summarize_paper_option && negb extract_images_option = false ->
  summarize_paper_option && negb (truthy api_key) = false ->
  main (plain_backend svc api_key) api_key inp
    (Upload pdf_bytes summarize_paper_option extract_images_option true true)
    s
  = (returned tt,
     mkApp (world s)
       (screen s ++
        [(Body, Say "spinner" msg_extracting_text);
         (Body, Say "error" msg_no_text)])
       (genai_calls s)).
Proof.
  intros Hopen Hpages Hks Hks1 Htop Htask Hkey.
  destruct (heading_on_top_leaves_blank _ pdf_bytes doc page after ks1 kw ks2
              Hopen Hpages Hks Hks1 Htop) as (blank & Hblank & Hrun).
  unfold main. rewrite Htask, Hkey.
  unfold app_bind at 1. cbn [show].
  unfold app_bind at 1.
  rewrite (plain_text_call svc api_key pdf_bytes true blank)
    by (cbn [world]; now rewrite Hrun).
  rewrite (strip_all_space blank Hblank). cbn [length Nat.ltb Nat.leb].
  rewrite orb_true_r. unfold show. cbn [world screen genai_calls].
  now rewrite <- app_assoc.
Qed.

Lemma references_on_top_witness :
  main (plain_backend sample_services None) None
    (keyless_inputs (Some [x07]) false true)
    (Upload [x07] false true true true) fresh_app
  = (returned tt,
     mkApp (world fresh_app)
       (screen fresh_app ++
        [(Body, Say "spinner" msg_extracting_text);
         (Body, Say "error" msg_no_text)])
       (genai_calls fresh_app)).
Proof.
  apply (references_on_top_stop_the_run sample_services None
           (keyless_inputs (Some [x07]) false true) [x07]
           references_first_doc page_references_first [page_long]
           [] (lit "References")
           [lit "REFERENCES"; chamgomunheon; lit "Bibliography"]).
  - reflexivity.
  - reflexivity.
  - reflexivity.
  - intros k [].
  - eexists. vm_compute. reflexivity.
  - reflexivity.
  - reflexivity.
Defined.

(* ================================================================== *)
(** * The decorators *)

(** The first summary is every summary.  The only parameter of
    [summarize_paper_with_ai] is left out of the cache key, so the
    cache has one slot: whatever the first call returns -- the failure
    message too, when the model was out of reach -- is what every later
    call returns, for any other text, any key and any state of the
    model, without a prompt being sent. *)
Theorem first_summary_is_served_for_every_text
  (svc : Services) (api_key : option str) (text : str) (s : AppState) :
  exists reply s1,
    cached_summarize svc api_key text [] s
    = (returned reply, [(tt, reply)], s1) /\
    forall svc' api_key' text' s',
      cached_summarize svc' api_key' text' [(tt, reply)] s'
      = (returned reply, [(tt, reply)], s').
Proof.
  unfold cached_summarize, cache_data. cbn [cache_lookup].
  pose proof (summarize_never_raises svc api_key text (fun _ => False) s)
    as Hnever.
  destruct (summarize_paper_with_ai svc api_key text s) as [[reply|e] s1].
  - exists reply, s1. split; reflexivity.
  - destruct (Hnever e eq_refl).
Qed.

(** The same slot serves [analyze_image_with_ai], whose two parameters
    are both left out of the key: once an analysis has been returned,
    every figure gets it. *)
Theorem first_analysis_is_served_for_every_figure
  (svc : Services) (api_key : option str) (image_bytes : bytes)
  (context : str) (s s1 : AppState) (reply : str)
  (cache : list (unit * str)) :
  cached_analyze svc api_key (image_bytes, context) [] s
  = (returned reply, cache, s1) ->
  forall svc' api_key' image_bytes' context' s',
    cached_analyze svc' api_key' (image_bytes', context') cache s'
    = (returned reply, cache, s').
Proof.
  unfold cached_analyze, cache_data. cbn [cache_lookup fst snd].
  destruct (analyze_image_with_ai svc api_key image_bytes context s)
    as [[r|e] s2]; [|discriminate].
  intros H. injection H as -> <- _. reflexivity.
Qed.

Lemma first_analysis_witness :
  cached_analyze offline_services None (jpeg_bytes, lit "Another paper")
    [(tt, lit "Reply 0")] fresh_app
  = (returned (lit "Reply 0"), [(tt, lit "Reply 0")], fresh_app).
Proof.
  apply (first_analysis_is_served_for_every_figure sample_services
           (Some (lit "secret-key")) png_bytes long_text fresh_app
           (mkApp fresh_world []
              [[TextPart image_prompt_role;
                TextPart (image_prompt_context ++ long_text);
                TextPart image_prompt_target;
                ImagePart (mkPIL png_bytes);
                TextPart image_prompt_request]])).
  reflexivity.
Defined.



